(** * A shallow embedding of [server.py], the alert-to-voice-call relay

    The Flask application has three routes:
    - [/dms] (GET, POST): the dead man's switch;
    - [/twilio-call] (POST): one call to [TO_NUMBER] for the first firing alert;
    - [/twilio-call-all] (POST): the same call to every number of
      [TO_NUMBERS_ALL].

    Python values are embedded as the inductive type [pyval], exceptions as
    values of [exn] carried by [result], the calls issued to the telephony
    provider as a trace threaded through the monad [M], and the module-level
    variable [last_post_time] as explicit state of type [float].

    Logging is left out, except for the one logged expression that can
    raise, [response.json()]; so are the [before_request] and
    [after_request] hooks, which only log: a request is one that reached its
    handler. *)

From Stdlib Require Import List ZArith NArith Lia Bool String Ascii.
From Stdlib Require Import Floats.PrimFloat.
Import ListNotations.

Set Implicit Arguments.
Set Warnings "-register-all".

(** ** Python strings

    A Python [str] is a sequence of Unicode code points. *)

Definition str : Type := list N.

Definition lit (s : string) : str :=
  map N_of_ascii (list_ascii_of_string s).

Fixpoint str_eqb (a b : str) : bool :=
  match a, b with
  | [], [] => true
  | x :: a', y :: b' => N.eqb x y && str_eqb a' b'
  | _, _ => false
  end.

(** [str.isspace] on one code point: the characters [str.strip()] removes. *)
Definition is_space (c : N) : bool :=
  ((9 <=? c) && (c <=? 13) || (28 <=? c) && (c <=? 32)
   || (c =? 133) || (c =? 160) || (c =? 5760)
   || (8192 <=? c) && (c <=? 8202)
   || (c =? 8232) || (c =? 8233) || (c =? 8239) || (c =? 8287)
   || (c =? 12288))%N.

Fixpoint lstrip (s : str) : str :=
  match s with
  | [] => []
  | c :: s' => if is_space c then lstrip s' else s
  end.

Definition rstrip (s : str) : str := rev (lstrip (rev s)).

(** [s.strip()] *)
Definition strip (s : str) : str := rstrip (lstrip s).

(** [s.split(sep)] for a one-character separator: never the empty list. *)
Fixpoint split (sep : N) (s : str) : list str :=
  match s with
  | [] => [[]]
  | c :: s' =>
      if N.eqb c sep then [] :: split sep s'
      else match split sep s' with
           | [] => [[c]]
           | w :: ws => (c :: w) :: ws
           end
  end.

Definition comma : N := 44.

(** ** Python values and exceptions *)

(** The values [request.json] can hold, and the bodies given to [jsonify]. *)
Inductive pyval : Type :=
| PyNone
| PyBool (b : bool)
| PyInt (z : Z)
| PyFloat (f : float)
| PyStr (s : str)
| PyList (l : list pyval)
| PyDict (d : list (str * pyval)).

(** A [dict] is an association list in insertion order; the first binding of
    a key is the one a lookup finds. *)
Definition dict : Type := list (str * pyval).

(** An exception: its class and [str(e)]. *)
Inductive exn : Type := Exn (cls : str) (msg : str).

Definition exn_str (e : exn) : str := let 'Exn _ m := e in m.

Inductive result (A : Type) : Type :=
| Ok (a : A)
| Raise (e : exn).
Arguments Raise {A} e.

Definition rbind {A B} (r : result A) (f : A -> result B) : result B :=
  match r with
  | Ok a => f a
  | Raise e => Raise e
  end.

Definition type_name (v : pyval) : str :=
  match v with
  | PyNone => lit "NoneType"
  | PyBool _ => lit "bool"
  | PyInt _ => lit "int"
  | PyFloat _ => lit "float"
  | PyStr _ => lit "str"
  | PyList _ => lit "list"
  | PyDict _ => lit "dict"
  end.

Definition AttributeError (v : pyval) (attr : string) : exn :=
  Exn (lit "AttributeError")
      (lit "'" ++ type_name v ++ lit "' object has no attribute '"
           ++ lit attr ++ lit "'").

Definition TypeError_not_iterable (v : pyval) : exn :=
  Exn (lit "TypeError")
      (lit "'" ++ type_name v ++ lit "' object is not iterable").

Definition KeyError (key : string) : exn :=
  Exn (lit "KeyError") (lit "'" ++ lit key ++ lit "'").

Fixpoint lookup (k : str) (d : dict) : option pyval :=
  match d with
  | [] => None
  | (k', v) :: d' => if str_eqb k' k then Some v else lookup k d'
  end.

(** [v.get(key, default)]: only a [dict] has the method. *)
Definition py_get (v : pyval) (key : string) (default : pyval) : result pyval :=
  match v with
  | PyDict d =>
      match lookup (lit key) d with
      | Some x => Ok x
      | None => Ok default
      end
  | _ => Raise (AttributeError v "get")
  end.

(** [d[key]] on a [dict] *)
Definition dict_getitem (d : dict) (key : string) : result pyval :=
  match lookup (lit key) d with
  | Some x => Ok x
  | None => Raise (KeyError key)
  end.

(** The items a [for] loop visits: the elements of a list, the keys of a
    dict, the characters of a string; nothing else is iterable. *)
Definition py_iter (v : pyval) : result (list pyval) :=
  match v with
  | PyList l => Ok l
  | PyDict d => Ok (map (fun kv => PyStr (fst kv)) d)
  | PyStr s => Ok (map (fun c => PyStr [c]) s)
  | _ => Raise (TypeError_not_iterable v)
  end.

(** [v == 'literal'] *)
Definition py_eq_str (v : pyval) (s : string) : bool :=
  match v with
  | PyStr t => str_eqb t (lit s)
  | _ => false
  end.

(** [bool(v)] *)
Definition py_truthy (v : pyval) : bool :=
  match v with
  | PyNone => false
  | PyBool b => b
  | PyInt z => negb (Z.eqb z 0)
  | PyFloat f => negb (PrimFloat.eqb f 0)
  | PyStr s => match s with [] => false | _ => true end
  | PyList l => match l with [] => false | _ => true end
  | PyDict d => match d with [] => false | _ => true end
  end.

(** ** Internal helper utils *)

(** The body of the [for] loop of [find_first_firing_alert], over the items
    still to visit. *)
Fixpoint first_firing (alerts : list pyval) : result pyval :=
  match alerts with
  | [] => Ok PyNone
  | alert :: rest =>
      rbind (py_get alert "status" PyNone) (fun status =>
      if py_eq_str status "firing" then Ok alert else first_firing rest)
  end.

(** [find_first_firing_alert(alerts_json)] *)
Definition find_first_firing_alert (alerts_json : pyval) : result pyval :=
  rbind (py_get alerts_json "alerts" (PyList [])) (fun alerts =>
  rbind (py_iter alerts) first_firing).


(** ** Settings, provider calls and the handler monad *)

(** The module-level settings, each [os.getenv] result: [None] when unset. *)
Record Config : Type := {
  TWILIO_ACCOUNT_SID : option str;
  TWILIO_AUTH_TOKEN : option str;
  TWILIO_FROM_NUMBER : option str;
  TO_NUMBER : option str;
  TO_NUMBERS_ALL : option str
}.

(** One [requests.post(url, auth=auth, data=payload)]. *)
Record Call : Type := {
  url : str;
  auth : option str * option str;
  From : option str;
  To : option str;
  Twiml : str
}.

(** What the handlers read of a [requests.Response]; [json] is the outcome of
    [response.json()], which raises when the body does not decode. *)
Record Response : Type := {
  status_code : Z;
  text : str;
  json : result pyval
}.

(** The provider seen through [requests.post]: the outcome of the call
    issued after [n] earlier ones of the same request, a response or a
    transport-level exception. *)
Definition Transport : Type := nat -> Call -> result Response.

(** Handlers run in a monad that threads the trace of provider calls issued
    so far and propagates exceptions. *)
Definition M (A : Type) : Type := list Call -> result A * list Call.

Definition ret {A} (a : A) : M A := fun tr => (Ok a, tr).

Definition bind {A B} (m : M A) (f : A -> M B) : M B :=
  fun tr =>
    match m tr with
    | (Ok a, tr') => f a tr'
    | (Raise e, tr') => (Raise e, tr')
    end.

Definition lift {A} (r : result A) : M A := fun tr => (r, tr).

(** [try: m except Exception as e: h e] *)
Definition try_except {A} (m : M A) (h : exn -> M A) : M A :=
  fun tr =>
    match m tr with
    | (Ok a, tr') => (Ok a, tr')
    | (Raise e, tr') => h e tr'
    end.

Declare Scope py_scope.
Delimit Scope py_scope with py.
Notation "x <- m ;; k" := (bind m (fun x => k))
  (at level 61, m at next level, right associativity) : py_scope.
Notation "' p <- m ;; k" := (bind m (fun x => let p := x in k))
  (at level 61, p pattern, m at next level, right associativity) : py_scope.

(** [f'{v}'] for a setting that may be [None] *)
Definition format_setting (v : option str) : str :=
  match v with
  | Some s => s
  | None => lit "None"
  end.

(** [[n.strip() for n in TO_NUMBERS_ALL.split(',') if n.strip()]] *)
Definition to_numbers_of (all : str) : list str :=
  map strip
      (filter (fun n => py_truthy (PyStr (strip n))) (split comma all)).

Definition result_success (to_number : str) : dict :=
  [(lit "to", PyStr to_number); (lit "status", PyStr (lit "success"))].

Definition result_failed (to_number : str) (details : str) : dict :=
  [(lit "to", PyStr to_number); (lit "status", PyStr (lit "failed"));
   (lit "details", PyStr details)].

(** [sum(1 for r in results if r['status'] == 'success')] *)
Fixpoint count_successes (results : list dict) : result Z :=
  match results with
  | [] => Ok 0%Z
  | r :: rest =>
      rbind (dict_getitem r "status") (fun status =>
      rbind (count_successes rest) (fun n =>
      Ok (if py_eq_str status "success" then (1 + n)%Z else n)))
  end.

Definition twiml_prefix : str := lit "<Response><Say>Alert triggered: ".
Definition twiml_suffix : str := lit "</Say></Response>".

(** What the loop appends to [results] for a target and the response to
    its call. *)
Definition call_result (to_number : str) (r : Response) : dict :=
  if (status_code r =? 201)%Z then result_success to_number
  else result_failed to_number (text r).

Definition call_results (tos : list str) (rs : list Response) : list dict :=
  map (fun p => call_result (fst p) (snd p)) (combine tos rs).

Definition is_created (r : Response) : bool := (status_code r =? 201)%Z.


(** ** The claims' vocabulary

    What the specification means by an alert, a firing alert and a
    well-formed voice script, stated independently of the handlers. *)

(** An Alert entity is a JSON object; its fields may be missing. *)
Definition is_alert (a : pyval) : Prop := exists d, a = PyDict d.

(** The alert's status is the exact string [firing]. *)
Definition firing (a : pyval) : bool :=
  match a with
  | PyDict d =>
      match lookup (lit "status") d with
      | Some (PyStr s) => str_eqb s (lit "firing")
      | _ => false
      end
  | _ => false
  end.

(** An alert batch: a JSON object whose [alerts] entry is a list of alerts;
    a batch without the entry has no alert. *)
Definition batch_of (payload : pyval) (alerts : list pyval) : Prop :=
  exists d,
    payload = PyDict d
    /\ (lookup (lit "alerts") d = Some (PyList alerts)
        \/ lookup (lit "alerts") d = None /\ alerts = [])
    /\ Forall is_alert alerts.

(** The fan-out list in the specification's words: split on commas, trim
    every entry, drop the entries that are empty once trimmed. *)
Definition fanout_targets (all : str) : list str :=
  filter (fun n => match n with [] => false | _ => true end)
         (map strip (split comma all)).

(** The effective fan-out target list of a configuration. *)
Definition effective_targets (env : Config) : list str :=
  match TO_NUMBERS_ALL env with
  | Some all => to_numbers_of all
  | None => []
  end.

Definition comma_or_space (c : N) : bool := N.eqb c comma || is_space c.

(** A clock that never runs backwards: a reading is at most every reading
    taken at the same time or later. *)
Inductive nondecreasing : list float -> Prop :=
| nondecreasing_nil : nondecreasing []
| nondecreasing_cons t ts :
    (t <=? t)%float = true ->
    Forall (fun u => (t <=? u)%float = true) ts ->
    nondecreasing ts ->
    nondecreasing (t :: ts).

(** *** Voice-script markup

    The scripts the builder produces use elements without attributes and
    character data.  [tokenize] reads such a document; it fails on a stray
    [<], [>] or [&], on an unknown entity and on a character XML forbids. *)

Inductive token : Type :=
| TOpen (name : str)
| TClose (name : str)
| TText (s : str).

Definition is_xml_char (c : N) : bool :=
  ((c =? 9) || (c =? 10) || (c =? 13)
   || (32 <=? c) && (c <=? 55295)
   || (57344 <=? c) && (c <=? 65533)
   || (65536 <=? c) && (c <=? 1114111))%N.

(** Character data that needs no escaping. *)
Definition plain_char (c : N) : bool :=
  (is_xml_char c && negb (c =? 60) && negb (c =? 38) && negb (c =? 62))%N.

Definition name_char (c : N) : bool :=
  ((65 <=? c) && (c <=? 90) || (97 <=? c) && (c <=? 122))%N.

Definition xml_space (c : N) : bool :=
  ((c =? 32) || (c =? 9) || (c =? 10) || (c =? 13))%N.

Definition decode_entity (name : str) : option N :=
  if str_eqb name (lit "amp") then Some 38%N
  else if str_eqb name (lit "lt") then Some 60%N
  else if str_eqb name (lit "gt") then Some 62%N
  else if str_eqb name (lit "quot") then Some 34%N
  else if str_eqb name (lit "apos") then Some 39%N
  else None.

(** Accumulators hold the characters read so far, last one first. *)
Inductive lex_mode : Type :=
| InText (acc : str)
| InOpen (acc : str)
| InClose (acc : str)
| InEntity (txt : str) (acc : str)
| Failed.

Definition push_text (acc : str) (toks : list token) : list token :=
  match acc with
  | [] => toks
  | _ => TText (rev acc) :: toks
  end.

Definition lex_step (st : list token * lex_mode) (c : N)
  : list token * lex_mode :=
  let '(toks, mode) := st in
  match mode with
  | InText acc =>
      if (c =? 60)%N then (push_text acc toks, InOpen [])
      else if (c =? 38)%N then (toks, InEntity acc [])
      else if plain_char c then (toks, InText (c :: acc))
      else (toks, Failed)
  | InOpen acc =>
      if (c =? 47)%N then
        match acc with
        | [] => (toks, InClose [])
        | _ => (toks, Failed)
        end
      else if (c =? 62)%N then
        match acc with
        | [] => (toks, Failed)
        | _ => (TOpen (rev acc) :: toks, InText [])
        end
      else if name_char c then (toks, InOpen (c :: acc))
      else (toks, Failed)
  | InClose acc =>
      if (c =? 62)%N then
        match acc with
        | [] => (toks, Failed)
        | _ => (TClose (rev acc) :: toks, InText [])
        end
      else if name_char c then (toks, InClose (c :: acc))
      else (toks, Failed)
  | InEntity txt acc =>
      if (c =? 59)%N then
        match decode_entity (rev acc) with
        | Some ch => (toks, InText (ch :: txt))
        | None => (toks, Failed)
        end
      else if name_char c then (toks, InEntity txt (c :: acc))
      else (toks, Failed)
  | Failed => (toks, Failed)
  end.

Definition tokenize (s : str) : option (list token) :=
  match fold_left lex_step s ([], InText []) with
  | (toks, InText acc) => Some (rev (push_text acc toks))
  | _ => None
  end.

(** Tags nest properly around exactly one root element; outside the root
    only white space may appear. *)
Fixpoint balanced (open : list str) (rooted : bool) (toks : list token)
  : bool :=
  match toks with
  | [] => match open with [] => rooted | _ => false end
  | TOpen n :: rest =>
      match open with
      | [] => negb rooted && balanced [n] true rest
      | _ => balanced (n :: open) rooted rest
      end
  | TClose n :: rest =>
      match open with
      | [] => false
      | m :: open' => str_eqb m n && balanced open' rooted rest
      end
  | TText s :: rest =>
      match open with
      | [] => forallb xml_space s && balanced open rooted rest
      | _ => balanced open rooted rest
      end
  end.

Definition well_formed (script : str) : bool :=
  match tokenize script with
  | Some toks => balanced [] false toks
  | None => false
  end.

(** The text of a script that is one [Response] holding one [Say] and
    nothing else. *)
Definition says (script : str) : option str :=
  match tokenize script with
  | Some [TOpen r; TOpen s; TText t; TClose s'; TClose r'] =>
      if str_eqb r (lit "Response") && str_eqb r' (lit "Response")
         && str_eqb s (lit "Say") && str_eqb s' (lit "Say")
      then Some t else None
  | _ => None
  end.

(** ** The application *)

(** [request.method] on the routes of this application. *)
Inductive Method : Type := GET | POST | HEAD.

(** [py_repr] is Python's [str()] on the values that are not strings, which
    the f-string of [build_twiml_from_alert] applies to such an alert name;
    [env] holds the settings read at import time; [requests_post] is the
    telephony provider. *)
Section Server.

Variable py_repr : pyval -> str.
Variable env : Config.
Variable requests_post : Transport.

Local Open Scope py_scope.

(** [f'{v}'] *)
Definition format_value (v : pyval) : str :=
  match v with
  | PyStr s => s
  | _ => py_repr v
  end.

(** [build_twiml_from_alert(alert)] *)
Definition build_twiml_from_alert (alert : pyval) : result (pyval * str) :=
  rbind (py_get alert "labels" (PyDict [])) (fun labels =>
  rbind (py_get labels "alertname" (PyStr (lit "Unknown Alert")))
        (fun alertname =>
  Ok (alertname, twiml_prefix ++ format_value alertname ++ twiml_suffix))).

(** The request [initiate_twilio_call] assembles: [url], [auth], [payload]. *)
Definition call_to (to_number : option str) (twiml_response : str) : Call :=
  {| url := lit "https://api.twilio.com/2010-04-01/Accounts/"
              ++ format_setting (TWILIO_ACCOUNT_SID env)
              ++ lit "/Calls.json";
     auth := (TWILIO_ACCOUNT_SID env, TWILIO_AUTH_TOKEN env);
     From := TWILIO_FROM_NUMBER env;
     To := to_number;
     Twiml := twiml_response |}.

(** [initiate_twilio_call(to_number, twiml_response)]: one provider call,
    recorded in the trace. *)
Definition initiate_twilio_call (to_number : option str) (twiml_response : str)
  : M Response :=
  fun tr =>
    let call := call_to to_number twiml_response in
    (requests_post (List.length tr) call, tr ++ [call]).

Definition message (s : string) : pyval :=
  PyDict [(lit "message", PyStr (lit s))].

Definition not_set : pyval :=
  PyDict [(lit "error", PyStr (lit "TO_NUMBERS_ALL env var not set"))].

Definition calls_processed (successes failures : Z) (results : list dict)
  : pyval :=
  PyDict [(lit "message", PyStr (lit "Calls processed"));
          (lit "successes", PyInt successes);
          (lit "failures", PyInt failures);
          (lit "results", PyList (map PyDict results))].

Definition internal_error (e : exn) : pyval * Z :=
  (PyDict [(lit "error", PyStr (lit "Internal server error"));
           (lit "details", PyStr (exn_str e))], 500%Z).

(** [deadmansswitch()], the handler of /dms.  [now] is the value [time.time()]
    returns in this request; the result is the new [last_post_time] and the
    response.  The route accepts GET and POST, and HEAD as every Flask route
    that accepts GET does; only POST takes the first branch. *)
Definition deadmansswitch (method : Method) (now : float) (last_post_time : float)
  : float * (pyval * Z) :=
  match method with
  | POST => (now, (message "Ping received", 200%Z))
  | _ =>
      let current_time := now in
      let time_since_last_ping := (current_time - last_post_time)%float in
      if (120 <? time_since_last_ping)%float then
        (last_post_time,
         (PyDict [(lit "status", PyStr (lit "error"));
                  (lit "message",
                   PyStr (lit "No ping received for over 2 minutes"));
                  (lit "seconds_since_last_ping",
                   PyFloat time_since_last_ping)], 500%Z))
      else
        (last_post_time,
         (PyDict [(lit "status", PyStr (lit "ok"));
                  (lit "seconds_since_last_ping",
                   PyFloat time_since_last_ping)], 200%Z))
  end.

(** [twilio_call()], the handler of POST /twilio-call.  Of the logging only
    [response.json()], evaluated for the success message, can raise. *)
Definition twilio_call (request_json : result pyval) : M (pyval * Z) :=
  try_except
    (data <- lift request_json ;;
     firing_alert <- lift (find_first_firing_alert data) ;;
     if negb (py_truthy firing_alert) then
       ret (message "No firing alerts, skipping call", 200%Z)
     else
       '(alertname, twiml_response) <-
          lift (build_twiml_from_alert firing_alert) ;;
       response <- initiate_twilio_call (TO_NUMBER env) twiml_response ;;
       if (status_code response =? 201)%Z then
         _ <- lift (json response) ;;
         ret (message "Call initiated successfully", 200%Z)
       else
         ret (PyDict [(lit "error", PyStr (lit "Failed to initiate call"));
                      (lit "details", PyStr (text response))], 500%Z))
    (fun e => ret (internal_error e)).

(** The [for to_number in to_numbers] loop of [twilio_call_all]. *)
Fixpoint call_each (to_numbers : list str) (twiml_response : str)
         (results : list dict) : M (list dict) :=
  match to_numbers with
  | [] => ret results
  | to_number :: rest =>
      response <- initiate_twilio_call (Some to_number) twiml_response ;;
      if (status_code response =? 201)%Z then
        _ <- lift (json response) ;;
        call_each rest twiml_response (results ++ [result_success to_number])
      else
        call_each rest twiml_response
                  (results ++ [result_failed to_number (text response)])
  end.

(** [twilio_call_all()], the handler of POST /twilio-call-all.  The guard
    [if not TO_NUMBERS_ALL] lets through a setting that is a non-empty
    string, bound to [all] below. *)
Definition twilio_call_all (request_json : result pyval) : M (pyval * Z) :=
  try_except
    (match TO_NUMBERS_ALL env with
     | Some ((_ :: _) as all) =>
         data <- lift request_json ;;
         firing_alert <- lift (find_first_firing_alert data) ;;
         if negb (py_truthy firing_alert) then
           ret (message "No firing alerts, skipping calls", 200%Z)
         else
           '(alertname, twiml_response) <-
              lift (build_twiml_from_alert firing_alert) ;;
           let to_numbers := to_numbers_of all in
           results <- call_each to_numbers twiml_response [] ;;
           successes <- lift (count_successes results) ;;
           let failures := (Z.of_nat (List.length results) - successes)%Z in
           ret (calls_processed successes failures results,
                if (failures =? 0)%Z then 200%Z else 207%Z)
     | _ => ret (not_set, 400%Z)
     end)
    (fun e => ret (internal_error e)).

(** *** The application as a state machine

    The process state is [last_post_time]; a request is served with the clock
    reading [now] and yields the new state, the response and the provider
    calls it issued.  A handler that raises is not possible: both call
    handlers catch every exception. *)

Inductive Request : Type :=
| Dms (method : Method)
| TwilioCall (request_json : result pyval)
| TwilioCallAll (request_json : result pyval).

Definition outcome (r : result (pyval * Z) * list Call)
  : option (pyval * Z) * list Call :=
  match r with
  | (Ok resp, tr) => (Some resp, tr)
  | (Raise _, tr) => (None, tr)
  end.

Definition serve (now : float) (req : Request) (last_post_time : float)
  : float * (option (pyval * Z) * list Call) :=
  match req with
  | Dms method =>
      let '(t, resp) := deadmansswitch method now last_post_time in
      (t, (Some resp, []))
  | TwilioCall j => (last_post_time, outcome (twilio_call j []))
  | TwilioCallAll j => (last_post_time, outcome (twilio_call_all j []))
  end.

(** The values [last_post_time] takes: [start], the reading at import time,
    then the value after each request of [events]. *)
Fixpoint history (start : float) (events : list (float * Request))
  : list float :=
  start ::
  match events with
  | [] => []
  | (now, req) :: rest => history (fst (serve now req start)) rest
  end.

(** *** What a request and the provider do, as the claims word it *)

(** The payload of the request holds a firing alert, and the script built
    from it is [twiml]. *)
Definition announces (req : result pyval) (twiml : str) : Prop :=
  exists data a name,
    req = Ok data
    /\ find_first_firing_alert data = Ok a
    /\ firing a = true
    /\ build_twiml_from_alert a = Ok (name, twiml).

(** The parser finds no firing alert in the request: it returns [None] or
    the payload is not one it can read. *)
Definition nothing_firing (req : result pyval) : Prop :=
  forall data a,
    req = Ok data -> find_first_firing_alert data = Ok a -> a = PyNone.

(** The provider answers the calls to [tos], the first of which is call
    number [n], with the responses [rs], and every 201 among them has a
    body that decodes as JSON. *)
Inductive answers (twiml : str) : nat -> list str -> list Response -> Prop :=
| answers_nil n : answers twiml n [] []
| answers_cons n to_number r tos rs :
    requests_post n (call_to (Some to_number) twiml) = Ok r ->
    ((status_code r = 201)%Z -> exists j, json r = Ok j) ->
    answers twiml (S n) tos rs ->
    answers twiml n (to_number :: tos) (r :: rs).

End Server.

(** ** Sample inputs *)

Module Sample.

Definition alert (status : string) (alertname : string) : pyval :=
  PyDict [(lit "status", PyStr (lit status));
          (lit "labels", PyDict [(lit "alertname", PyStr (lit alertname))])].

Definition resolved : pyval := PyDict [(lit "status", PyStr (lit "resolved"))].

Definition payload (alerts : list pyval) : pyval :=
  PyDict [(lit "receiver", PyStr (lit "oncall"));
          (lit "alerts", PyList alerts)].

(** The example of the specification. *)
Definition disk_full : pyval := payload [resolved; alert "firing" "DiskFull"].

Definition no_repr : pyval -> str := fun _ => [].

Definition unset : Config :=
  {| TWILIO_ACCOUNT_SID := None; TWILIO_AUTH_TOKEN := None;
     TWILIO_FROM_NUMBER := None; TO_NUMBER := None; TO_NUMBERS_ALL := None |}.

Definition fanout (all : string) : Config :=
  {| TWILIO_ACCOUNT_SID := Some (lit "AC0"); TWILIO_AUTH_TOKEN := Some (lit "t");
     TWILIO_FROM_NUMBER := Some (lit "+15550000");
     TO_NUMBER := Some (lit "+15550001"); TO_NUMBERS_ALL := Some (lit all) |}.

Definition created : Response :=
  {| status_code := 201; text := lit "{}"; json := Ok (PyDict []) |}.

Definition created_no_json : Response :=
  {| status_code := 201; text := [];
     json := Raise (Exn (lit "JSONDecodeError")
                        (lit "Expecting value: line 1 column 1 (char 0)")) |}.

Definition busy : Response :=
  {| status_code := 429; text := lit "Too Many Requests";
     json := Raise (Exn (lit "JSONDecodeError")
                        (lit "Expecting value: line 1 column 1 (char 0)")) |}.

(** The provider's answer to a call without credentials. *)
Definition unauthorized : Response :=
  {| status_code := 401; text := lit "Authenticate";
     json := Ok (PyDict [(lit "code", PyInt 20003)]) |}.

Definition always (r : Response) : Transport := fun _ _ => Ok r.

(** The provider that refuses the second call only. *)
Definition second_busy : Transport :=
  fun n _ => match n with 1%nat => Ok busy | _ => Ok created end.

(** The provider whose second call fails in the transport. *)
Definition second_down : Transport :=
  fun n _ =>
    match n with
    | 1%nat => Raise (Exn (lit "ConnectionError") (lit "connection refused"))
    | _ => Ok created
    end.

(** The script announcing [name]. *)
Definition script (name : string) : str :=
  lit "<Response><Say>Alert triggered: " ++ lit name
      ++ lit "</Say></Response>".

End Sample.

(** ** Further vocabulary *)

(** [','.join(entries)] *)
Fixpoint join_commas (entries : list str) : str :=
  match entries with
  | [] => []
  | [x] => x
  | x :: rest => x ++ comma :: join_commas rest
  end.

Definition spaces (s : str) : bool := forallb is_space s.

Definition comma_free (s : str) : bool :=
  forallb (fun c => negb (N.eqb c comma)) s.

(** A non-empty string with no white space at either end. *)
Definition trimmed (s : str) : bool :=
  match s with
  | [] => false
  | c :: _ => negb (is_space c) && negb (is_space (last s c))
  end.

(** An entry of the setting as an operator may write it: the number [x]
    between white space [a] and [b]. *)
Definition padded (e : str * str * str) : str :=
  let '(a, x, b) := e in a ++ x ++ b.

Definition number_of (e : str * str * str) : str :=
  let '(_, x, _) := e in x.

Definition well_padded (e : str * str * str) : bool :=
  let '(a, x, b) := e in
  spaces a && spaces b && trimmed x && comma_free x.

Definition is_ping (ev : float * Request) : bool :=
  match snd ev with
  | Dms POST => true
  | _ => false
  end.

(** The JSON values a [for] loop cannot iterate: null, booleans, numbers. *)
Definition not_iterable (v : pyval) : bool :=
  match v with
  | PyNone | PyBool _ | PyInt _ | PyFloat _ => true
  | _ => false
  end.

(** The call to [to_number], issued after [n] others, ends the fan-out loop:
    the transport raises, or the answer is a 201 whose body is not JSON. *)
Definition breaks (env : Config) (requests_post : Transport)
           (twiml : str) (n : nat) (to_number : str) (e : exn) : Prop :=
  requests_post n (call_to env (Some to_number) twiml) = Raise e
  \/ exists r,
       requests_post n (call_to env (Some to_number) twiml) = Ok r
       /\ status_code r = 201%Z /\ json r = Raise e.

(** * Properties *)

(** ** Strings *)

Lemma str_eqb_refl (a : str) : str_eqb a a = true.
Proof.
  induction a as [|x a IH]; simpl; [reflexivity|].
  now rewrite N.eqb_refl, IH.
Qed.

Lemma str_eqb_eq (a b : str) : str_eqb a b = true <-> a = b.
Proof.
  split; [|intros ->; apply str_eqb_refl].
  revert b; induction a as [|x a IH]; intros [|y b]; simpl;
    try discriminate; [reflexivity|].
  intros H; apply andb_true_iff in H as [Hx Hab].
  apply N.eqb_eq in Hx; apply IH in Hab; now subst.
Qed.

(** ** The alert parser *)

Lemma firing_status (a : pyval) :
  firing a = true <->
  exists d, a = PyDict d /\ lookup (lit "status") d = Some (PyStr (lit "firing")).
Proof.
  split.
  - destruct a as [| | | | |l|d]; simpl; try discriminate.
    destruct (lookup (lit "status") d) as [[| | | |s| |]|] eqn:E;
      try discriminate.
    intros H; apply str_eqb_eq in H; subst s.
    exists d; split; [reflexivity|assumption].
  - intros (d & -> & E); simpl; rewrite E; apply str_eqb_refl.
Qed.

Lemma firing_truthy (a : pyval) : firing a = true -> py_truthy a = true.
Proof.
  intros H; apply firing_status in H as (d & -> & E).
  destruct d; [discriminate|reflexivity].
Qed.

(** One turn of the loop on an alert that is an object. *)
Lemma first_firing_alert (d : dict) (rest : list pyval) :
  first_firing (PyDict d :: rest) =
  if firing (PyDict d) then Ok (PyDict d) else first_firing rest.
Proof.
  simpl. destruct (lookup (lit "status") d) as [[| | | |s| |]|]; reflexivity.
Qed.

Lemma first_firing_none (alerts : list pyval) :
  Forall is_alert alerts ->
  Forall (fun x => firing x = false) alerts ->
  first_firing alerts = Ok PyNone.
Proof.
  induction 1 as [|a alerts [d ->] _ IH]; intros Hn; [reflexivity|].
  inversion Hn as [|? ? Ha Hrest]; subst.
  rewrite first_firing_alert, Ha. now apply IH.
Qed.

Lemma first_firing_first (pre : list pyval) (a : pyval) (post : list pyval) :
  Forall is_alert pre ->
  Forall (fun x => firing x = false) pre ->
  firing a = true ->
  first_firing (pre ++ a :: post) = Ok a.
Proof.
  induction 1 as [|b pre [d ->] _ IH]; intros Hn Ha.
  - apply firing_status in Ha as Hd. destruct Hd as (d & -> & _).
    simpl app. now rewrite first_firing_alert, Ha.
  - inversion Hn as [|? ? Hb Hrest]; subst.
    simpl app. rewrite first_firing_alert, Hb. now apply IH.
Qed.

(** What the loop returns is [None] or one of the items, and that item is
    firing. *)
Lemma first_firing_selects (alerts : list pyval) (a : pyval) :
  first_firing alerts = Ok a ->
  a = PyNone \/ (In a alerts /\ firing a = true).
Proof.
  induction alerts as [|b alerts IH]; simpl.
  - intros [= <-]; now left.
  - destruct b as [| | | | |l|d]; simpl; try discriminate.
    destruct (lookup (lit "status") d) as [v|] eqn:E; simpl.
    + destruct (py_eq_str v "firing") eqn:Ev.
      * intros [= <-]; right; split; [now left|].
        simpl; rewrite E. destruct v; try discriminate. exact Ev.
      * intros H; destruct (IH H) as [->|[Hin Hf]]; [now left|].
        right; split; [now right|assumption].
    + intros H; destruct (IH H) as [->|[Hin Hf]]; [now left|].
      right; split; [now right|assumption].
Qed.

Lemma find_first_firing_alert_batch (payload : pyval) (alerts : list pyval) :
  batch_of payload alerts ->
  find_first_firing_alert payload = first_firing alerts.
Proof.
  intros (d & -> & [E|[E ->]] & _); unfold find_first_firing_alert; simpl;
    rewrite E; reflexivity.
Qed.

Lemma find_first_firing_alert_selects (payload a : pyval) :
  find_first_firing_alert payload = Ok a ->
  a = PyNone \/ firing a = true.
Proof.
  unfold find_first_firing_alert.
  destruct (py_get payload "alerts" (PyList [])) as [v|e]; simpl;
    [|discriminate].
  destruct (py_iter v) as [l|e]; simpl; [|discriminate].
  intros H; apply first_firing_selects in H as [->|[_ H]]; auto.
Qed.

(** C1: for every alert batch the parser returns the first alert, in the
    order received, whose status is [firing], whatever precedes or follows
    it, and returns [None] when no alert of the batch is firing, the empty
    batch included. *)
Theorem find_first_firing_alert_first_in_order
        (payload : pyval) (alerts : list pyval) :
  batch_of payload alerts ->
  (forall pre a post,
      alerts = pre ++ a :: post ->
      Forall (fun x => firing x = false) pre ->
      firing a = true ->
      find_first_firing_alert payload = Ok a)
  /\ (Forall (fun x => firing x = false) alerts ->
      find_first_firing_alert payload = Ok PyNone).
Proof.
  intros Hb. rewrite (find_first_firing_alert_batch Hb).
  destruct Hb as (d & _ & _ & Hall). split.
  - intros pre a post -> Hpre Ha.
    apply first_firing_first; try assumption.
    apply Forall_app in Hall; tauto.
  - intros Hn. now apply first_firing_none.
Qed.

(** *** Payloads of another shape *)

Lemma first_firing_not_alert (pre : list pyval) (x : pyval) (post : list pyval) :
  Forall is_alert pre ->
  Forall (fun a => firing a = false) pre ->
  ~ is_alert x ->
  first_firing (pre ++ x :: post) = Raise (AttributeError x "get").
Proof.
  induction 1 as [|b pre [d ->] _ IH]; intros Hn Hx.
  - simpl. destruct x; try reflexivity. destruct Hx. eexists; reflexivity.
  - inversion Hn as [|? ? Hb Hrest]; subst.
    simpl app. rewrite first_firing_alert, Hb. now apply IH.
Qed.

(** X1: the loop stops at the first item that decides it.  After alerts
    that are not firing, a firing alert is returned whatever follows it,
    items that are not objects included; an item that is not an object
    raises the [AttributeError] of its [.get], whatever follows it. *)
Theorem find_first_firing_alert_stops
        (d : dict) (pre : list pyval) (x : pyval) (post : list pyval) :
  lookup (lit "alerts") d = Some (PyList (pre ++ x :: post)) ->
  Forall is_alert pre ->
  Forall (fun a => firing a = false) pre ->
  (firing x = true -> find_first_firing_alert (PyDict d) = Ok x)
  /\ (~ is_alert x ->
      find_first_firing_alert (PyDict d) = Raise (AttributeError x "get")).
Proof.
  intros Hd Hpre Hn.
  unfold find_first_firing_alert. simpl. rewrite Hd. simpl.
  split; intros Hx.
  - now apply first_firing_first.
  - now apply first_firing_not_alert.
Qed.

(** X2: what the parser does with a payload of the wrong shape.  A payload
    that is not an object raises [AttributeError]; an [alerts] entry that is
    an empty string or an empty object is an empty batch; a non-empty string
    or object is iterated, and its first character or key, a string, raises
    [AttributeError]; any other value that is not a list raises
    [TypeError]. *)
Theorem find_first_firing_alert_wrong_shape (payload : pyval) :
  (~ is_alert payload ->
   find_first_firing_alert payload = Raise (AttributeError payload "get"))
  /\ (forall d v,
         payload = PyDict d ->
         lookup (lit "alerts") d = Some v ->
         match v with
         | PyList _ => True
         | PyStr [] | PyDict [] => find_first_firing_alert payload = Ok PyNone
         | PyStr (c :: _) =>
             find_first_firing_alert payload
             = Raise (AttributeError (PyStr [c]) "get")
         | PyDict ((k, _) :: _) =>
             find_first_firing_alert payload
             = Raise (AttributeError (PyStr k) "get")
         | _ =>
             find_first_firing_alert payload
             = Raise (TypeError_not_iterable v)
         end).
Proof.
  split.
  - intros Hp. destruct payload; try reflexivity.
    destruct Hp. eexists; reflexivity.
  - intros d v -> Hv. unfold find_first_firing_alert. simpl. rewrite Hv.
    destruct v as [| | | |[|c s]|l|[|[k x] d']]; try reflexivity; exact I.
Qed.

(** X3: the handlers' test [if not firing_alert] skips exactly when the
    parser returned [None]: an alert it returns is never falsy. *)
Theorem returned_alert_is_truthy (payload a : pyval) :
  find_first_firing_alert payload = Ok a ->
  (py_truthy a = false <-> a = PyNone).
Proof.
  intros H. split; [|now intros ->].
  destruct (find_first_firing_alert_selects _ H) as [->|Ha]; [reflexivity|].
  rewrite (firing_truthy _ Ha). discriminate.
Qed.

(** *** The script builder *)

(** X4: an alert without labels, or whose labels hold no [alertname], is
    announced as [Unknown Alert]. *)
Theorem build_twiml_from_alert_unknown (py_repr : pyval -> str) (d : dict) :
  (lookup (lit "labels") d = None
   \/ exists labels,
        lookup (lit "labels") d = Some (PyDict labels)
        /\ lookup (lit "alertname") labels = None) ->
  build_twiml_from_alert py_repr (PyDict d)
  = Ok (PyStr (lit "Unknown Alert"),
        lit "<Response><Say>Alert triggered: Unknown Alert</Say></Response>").
Proof.
  intros [H|(labels & H & Hn)]; unfold build_twiml_from_alert; simpl;
    rewrite H; simpl; [|rewrite Hn]; reflexivity.
Qed.

(** X5: the builder raises exactly when the alert, or its [labels] entry,
    is not an object, and then with the [AttributeError] of the [.get] on
    that value; an [alertname] of any type is accepted. *)
Theorem build_twiml_from_alert_raises
        (py_repr : pyval -> str) (alert : pyval) (e : exn) :
  build_twiml_from_alert py_repr alert = Raise e <->
  (~ is_alert alert /\ e = AttributeError alert "get")
  \/ (exists d labels,
         alert = PyDict d
         /\ lookup (lit "labels") d = Some labels
         /\ ~ is_alert labels
         /\ e = AttributeError labels "get").
Proof.
  unfold build_twiml_from_alert. split.
  - destruct alert as [| | | | |l|d];
      try (simpl; intros [= <-]; left; split;
           [intros [d' Hd']; discriminate|reflexivity]).
    simpl. destruct (lookup (lit "labels") d) as [labels|] eqn:Hl; simpl.
    + destruct labels as [| | | | |l|labels];
        try (simpl; intros [= <-]; right; exists d; eexists;
             repeat split; try eassumption; intros [d' Hd']; discriminate).
      simpl. destruct (lookup (lit "alertname") labels); discriminate.
    + discriminate.
  - intros [[Ha ->]|(d & labels & -> & Hl & Hn & ->)].
    + destruct alert; try reflexivity. destruct Ha. eexists; reflexivity.
    + simpl. rewrite Hl. simpl.
      destruct labels; try reflexivity. destruct Hn. eexists; reflexivity.
Qed.

(** ** The call handlers *)

Section Handlers.

Variable py_repr : pyval -> str.
Variable env : Config.
Variable requests_post : Transport.

Local Abbreviation run_call := (twilio_call py_repr env requests_post).
Local Abbreviation run_call_all :=
  (twilio_call_all py_repr env requests_post).
Local Abbreviation announces := (announces py_repr).
Local Abbreviation answers := (answers env requests_post).

(** Closes a goal asking for the response of a run that has been evaluated. *)
Ltac answered :=
  unfold internal_error;
  repeat eexists; first [reflexivity | now left | now right | eauto].

Lemma twilio_call_skips (data : pyval) (tr : list Call) :
  find_first_firing_alert data = Ok PyNone ->
  run_call (Ok data) tr =
  (Ok (message "No firing alerts, skipping call", 200%Z), tr).
Proof.
  intros H. unfold twilio_call, try_except, bind, lift, ret.
  now rewrite H.
Qed.

(** Every request gets a response; without a firing alert no call is
    issued. *)
Lemma twilio_call_nothing_firing (req : result pyval) (tr : list Call) :
  nothing_firing req ->
  exists body code,
    run_call req tr = (Ok (body, code), tr) /\ (code = 200 \/ code = 500)%Z.
Proof.
  intros Hn. unfold twilio_call, try_except, bind, lift, ret.
  destruct req as [data|e]; [|answered].
  destruct (find_first_firing_alert data) as [a|e] eqn:E; [|answered].
  rewrite (Hn data a eq_refl E). simpl. answered.
Qed.

(** With a firing alert the handler issues exactly one call, to [TO_NUMBER]
    as it was read from the environment. *)
Lemma twilio_call_announces (req : result pyval) (twiml : str) :
  announces req twiml ->
  exists body code,
    run_call req [] = (Ok (body, code), [call_to env (TO_NUMBER env) twiml])
    /\ (code = 200 \/ code = 500)%Z.
Proof.
  intros (data & a & name & -> & Hf & Ha & Hb).
  unfold twilio_call, try_except, bind, lift, ret, initiate_twilio_call.
  rewrite Hf, (firing_truthy _ Ha), Hb. simpl.
  destruct (requests_post 0 _) as [r|e]; [|answered].
  destruct (status_code r =? 201)%Z; [|answered].
  destruct (json r); answered.
Qed.

Lemma announces_or_nothing (req : result pyval) :
  nothing_firing req
  \/ (exists twiml, announces req twiml)
  \/ (exists data a e,
         req = Ok data /\ find_first_firing_alert data = Ok a
         /\ firing a = true /\ build_twiml_from_alert py_repr a = Raise e).
Proof.
  destruct req as [data|e]; [|left; intros ? ? [=]].
  destruct (find_first_firing_alert data) as [a|e] eqn:E;
    [|left; intros d a [= <-]; congruence].
  destruct (find_first_firing_alert_selects _ E) as [->|Ha].
  - left; intros d a [= <-]; congruence.
  - right. destruct (build_twiml_from_alert py_repr a) as [[name twiml]|e'] eqn:Hb.
    + left; exists twiml, data, a, name; auto.
    + right; exists data, a, e'; auto.
Qed.

Lemma twilio_call_build_fails (data a : pyval) (e : exn) (tr : list Call) :
  find_first_firing_alert data = Ok a ->
  firing a = true ->
  build_twiml_from_alert py_repr a = Raise e ->
  run_call (Ok data) tr = (Ok (internal_error e), tr).
Proof.
  intros Hf Ha Hb.
  unfold twilio_call, try_except, bind, lift, ret.
  now rewrite Hf, (firing_truthy _ Ha), Hb.
Qed.

(** The handler of /twilio-call answers every request, with 200 or 500. *)
Lemma twilio_call_total (req : result pyval) :
  exists body code tr,
    run_call req [] = (Ok (body, code), tr) /\ (code = 200 \/ code = 500)%Z.
Proof.
  destruct (announces_or_nothing req)
    as [Hn|[[twiml Ha]|(data & a & e & -> & Hf & Ha & Hb)]].
  - destruct (twilio_call_nothing_firing [] Hn) as (b & c & H & Hc); eauto 6.
  - destruct (twilio_call_announces Ha) as (b & c & H & Hc); eauto 6.
  - rewrite (@twilio_call_build_fails data a e [] Hf Ha Hb). unfold internal_error.
    eauto 6.
Qed.

(** A call is issued only for a firing alert. *)
Lemma twilio_call_quiet (req : result pyval) :
  (forall twiml, ~ announces req twiml) ->
  snd (run_call req []) = [].
Proof.
  intros Hno.
  destruct (announces_or_nothing req)
    as [Hn|[[twiml Ha]|(data & a & e & -> & Hf & Ha & Hb)]].
  - destruct (twilio_call_nothing_firing [] Hn) as (b & c & -> & _).
    reflexivity.
  - destruct (Hno _ Ha).
  - now rewrite (@twilio_call_build_fails data a e [] Hf Ha Hb).
Qed.

(** *** The fan-out handler *)

Ltac run_handler :=
  unfold twilio_call_all, twilio_call, try_except, bind, lift, ret.

(** The guard [if not TO_NUMBERS_ALL]: answered before the request is read. *)
Lemma twilio_call_all_not_set (req : result pyval) (tr : list Call) :
  TO_NUMBERS_ALL env = None \/ TO_NUMBERS_ALL env = Some [] ->
  run_call_all req tr = (Ok (not_set, 400%Z), tr).
Proof.
  intros [E|E]; run_handler; rewrite E; reflexivity.
Qed.

Lemma twilio_call_all_quiet (req : result pyval) :
  (forall twiml, ~ announces req twiml) ->
  snd (run_call_all req []) = [].
Proof.
  intros Hno. run_handler.
  destruct (TO_NUMBERS_ALL env) as [[|c all]|]; try reflexivity.
  destruct (announces_or_nothing req)
    as [Hn|[[twiml Ha]|(data & a & e & -> & Hf & Ha & Hb)]].
  - destruct req as [data|e]; [|reflexivity].
    destruct (find_first_firing_alert data) as [a|e] eqn:E; [|reflexivity].
    now rewrite (Hn data a eq_refl E).
  - destruct (Hno _ Ha).
  - now rewrite Hf, (firing_truthy _ Ha), Hb.
Qed.

Lemma answers_length twiml n tos rs :
  answers twiml n tos rs -> List.length rs = List.length tos.
Proof. induction 1; simpl; congruence. Qed.

Lemma call_each_answers twiml tos : forall rs results tr,
  answers twiml (List.length tr) tos rs ->
  call_each env requests_post tos twiml results tr =
  (Ok (results ++ call_results tos rs),
   tr ++ map (fun to_number => call_to env (Some to_number) twiml) tos).
Proof.
  induction tos as [|to_number tos IH]; intros rs results tr H;
    inversion H as [|? ? r ? rs' Hp Hj Hrest]; subst.
  - simpl. unfold ret. now rewrite !app_nil_r.
  - simpl. unfold bind at 1. unfold initiate_twilio_call. rewrite Hp.
    assert (Hlen : S (List.length tr) =
                   List.length (tr ++ [call_to env (Some to_number) twiml]))
      by (rewrite length_app; simpl; lia).
    rewrite Hlen in Hrest.
    unfold call_results; simpl combine; simpl map; unfold call_result at 1.
    simpl fst; simpl snd.
    destruct (status_code r =? 201)%Z eqn:E.
    + apply Z.eqb_eq in E. destruct (Hj E) as [j Hjson].
      unfold bind, lift. rewrite Hjson.
      rewrite (IH rs' _ _ Hrest), <- !app_assoc. reflexivity.
    + rewrite (IH rs' _ _ Hrest), <- !app_assoc. reflexivity.
Qed.

Lemma count_successes_success to_number rest :
  count_successes (result_success to_number :: rest) =
  rbind (count_successes rest) (fun n => Ok (1 + n)%Z).
Proof. reflexivity. Qed.

Lemma count_successes_failed to_number details rest :
  count_successes (result_failed to_number details :: rest) =
  count_successes rest.
Proof.
  change (count_successes (result_failed to_number details :: rest))
    with (rbind (count_successes rest) (fun n => Ok n)).
  now destruct (count_successes rest).
Qed.

Lemma count_successes_call_results : forall tos rs,
  List.length rs = List.length tos ->
  count_successes (call_results tos rs) =
  Ok (Z.of_nat (List.length (filter is_created rs))).
Proof.
  induction tos as [|to_number tos IH]; intros [|r rs] Hlen;
    try discriminate; [reflexivity|].
  assert (IH' := IH rs ltac:(simpl in Hlen; lia)).
  unfold call_results in *. simpl combine. simpl map. simpl fst. simpl snd.
  unfold call_result at 1. simpl filter. unfold is_created at 1.
  destruct (status_code r =? 201)%Z.
  - rewrite count_successes_success, IH'. unfold rbind.
    f_equal. simpl List.length. lia.
  - rewrite count_successes_failed. exact IH'.
Qed.

Lemma count_created (rs : list Response) :
  (List.length (filter is_created rs)
   + List.length (filter (fun r => negb (is_created r)) rs)
   = List.length rs)%nat.
Proof.
  induction rs as [|r rs IH]; [reflexivity|].
  simpl. destruct (is_created r); simpl; lia.
Qed.

Lemma call_results_length tos rs :
  List.length rs = List.length tos ->
  List.length (call_results tos rs) = List.length tos.
Proof.
  intros H. unfold call_results. rewrite length_map, length_combine. lia.
Qed.

End Handlers.

(** ** The fan-out list *)

Lemma map_filter_comm {A B} (f : A -> B) (p : B -> bool) (l : list A) :
  map f (filter (fun x => p (f x)) l) = filter p (map f l).
Proof.
  induction l as [|x l IH]; [reflexivity|].
  simpl. destruct (p (f x)); simpl; now rewrite IH.
Qed.

Lemma to_numbers_of_fanout_targets (all : str) :
  to_numbers_of all = fanout_targets all.
Proof.
  unfold to_numbers_of, fanout_targets.
  apply (map_filter_comm strip
           (fun n => match n with [] => false | _ => true end)).
Qed.

Lemma split_not_nil (sep : N) (s : str) : split sep s <> [].
Proof.
  destruct s as [|c s]; simpl; [discriminate|].
  destruct (N.eqb c sep); [discriminate|].
  destruct (split sep s); discriminate.
Qed.

(** Splitting a string of commas and white space leaves only white space. *)
Lemma split_comma_or_space (s : str) :
  forallb comma_or_space s = true ->
  Forall (fun w => forallb is_space w = true) (split comma s).
Proof.
  induction s as [|c s IH]; simpl; intros H.
  - repeat constructor.
  - apply andb_true_iff in H as [Hc Hs]. specialize (IH Hs).
    unfold comma_or_space in Hc.
    destruct (N.eqb c comma) eqn:E; [constructor; [reflexivity|assumption]|].
    simpl in Hc.
    destruct (split comma s) as [|w ws]; inversion IH; subst;
      constructor; simpl; try rewrite Hc; auto.
Qed.

Lemma lstrip_spaces (w : str) : forallb is_space w = true -> lstrip w = [].
Proof.
  induction w as [|c w IH]; simpl; [reflexivity|].
  intros H; apply andb_true_iff in H as [Hc Hw]. now rewrite Hc, IH.
Qed.

Lemma strip_spaces (w : str) : forallb is_space w = true -> strip w = [].
Proof.
  intros H. unfold strip. now rewrite (lstrip_spaces _ H).
Qed.

Lemma to_numbers_of_blank (all : str) :
  forallb comma_or_space all = true -> to_numbers_of all = [].
Proof.
  intros H. apply split_comma_or_space in H.
  unfold to_numbers_of.
  induction H as [|w ws Hw _ IH]; [reflexivity|].
  simpl. now rewrite (strip_spaces _ Hw).
Qed.

(** ** The claims on the call handlers *)

Section Claims.

Variable py_repr : pyval -> str.
Variable env : Config.
Variable requests_post : Transport.

Local Abbreviation run_call := (twilio_call py_repr env requests_post).
Local Abbreviation run_call_all :=
  (twilio_call_all py_repr env requests_post).
Local Abbreviation announces := (announces py_repr).
Local Abbreviation answers := (answers env requests_post).

(** C3, as amended: for a non-empty list of N targets, when the provider
    answers every call, every 201 carries a body that decodes as JSON and
    exactly k answers are not 201, the fan-out handler issues one call per
    target, in order and to the end of the list, records a success exactly
    for the 201 answers, and returns successes = N - k, failures = k and the
    N results each paired with its target, with status 200 when k = 0 and
    207 otherwise. *)
Theorem twilio_call_all_aggregates
        (req : result pyval) (twiml all : str)
        (tos : list str) (rs : list Response) (k : nat) :
  announces req twiml ->
  TO_NUMBERS_ALL env = Some all ->
  to_numbers_of all = tos ->
  tos <> [] ->
  answers twiml 0 tos rs ->
  k = List.length (filter (fun r => negb (is_created r)) rs) ->
  run_call_all req [] =
  (Ok (calls_processed (Z.of_nat (List.length tos) - Z.of_nat k)
                       (Z.of_nat k) (call_results tos rs),
       if Nat.eqb k 0 then 200%Z else 207%Z),
   map (fun to_number => call_to env (Some to_number) twiml) tos).
Proof.
  intros (data & a & name & -> & Hf & Ha & Hb) Hall Htos Hne Hans Hk.
  assert (Hlen := answers_length Hans).
  destruct all as [|c all']; [subst tos; now destruct Hne|].
  unfold twilio_call_all, try_except, bind, lift, ret.
  rewrite Hall, Hf, (firing_truthy _ Ha), Hb. cbn [negb]. cbv beta iota zeta.
  rewrite Htos.
  rewrite (call_each_answers (twiml := twiml) (tos := tos) (rs := rs) [] []
             Hans).
  simpl app.
  rewrite (count_successes_call_results _ _ Hlen).
  rewrite (call_results_length _ _ Hlen).
  assert (Hc := count_created rs). rewrite <- Hk, Hlen in Hc.
  replace (Z.of_nat (List.length tos)
           - Z.of_nat (List.length (filter is_created rs)))%Z
    with (Z.of_nat k) by lia.
  replace (Z.of_nat (List.length (filter is_created rs)))
    with (Z.of_nat (List.length tos) - Z.of_nat k)%Z by lia.
  destruct k; reflexivity.
Qed.

(** C4, as amended: when TO_NUMBERS_ALL is unset or the empty string the
    fan-out handler answers 400 at once, whatever the request, and issues
    no provider call; and whenever the effective target list is empty no
    provider call is issued. *)
Theorem twilio_call_all_unconfigured (req : result pyval) :
  (TO_NUMBERS_ALL env = None \/ TO_NUMBERS_ALL env = Some [] ->
   run_call_all req [] = (Ok (not_set, 400%Z), []))
  /\ (effective_targets env = [] -> snd (run_call_all req []) = []).
Proof.
  split; [apply twilio_call_all_not_set|].
  unfold effective_targets. intros He.
  destruct (TO_NUMBERS_ALL env) as [[|c all]|] eqn:E;
    [rewrite twilio_call_all_not_set by auto; reflexivity|
    |rewrite twilio_call_all_not_set by auto; reflexivity].
  destruct (announces_or_nothing py_repr req)
    as [Hn|[[twiml Ha]|(data & a & e & -> & Hf & Ha & Hb)]].
  - apply twilio_call_all_quiet.
    intros twiml (data & a & name & -> & Hf & Ha & _).
    rewrite (Hn data a eq_refl Hf) in Ha. discriminate.
  - destruct Ha as (data & a & name & -> & Hf & Ha & Hb).
    unfold twilio_call_all, try_except, bind, lift, ret.
    rewrite E, Hf, (firing_truthy _ Ha), Hb. cbn [negb]. cbv beta iota zeta.
    rewrite He. reflexivity.
  - apply twilio_call_all_quiet.
    intros twiml (data' & a' & name & [= <-] & Hf' & _ & Hb').
    congruence.
Qed.

(** C7, as amended: a request in which the parser finds no firing alert
    never reaches the telephony dispatcher and is always answered, with 200
    or 500.  It is answered with the 200 no-op exactly when the parser
    returns [None]: so for a payload that is a JSON object whose [alerts]
    entry is absent, or a list of objects none of which has status
    [firing], whatever other fields are missing, or an empty string or an
    empty object.  It is answered 500 [Internal server error], with the
    exception's message as details, exactly when reading the request or
    parsing the payload raises: so for a payload that is not an object, for
    an [alerts] entry that is null, a boolean or a number, and for a list
    in which an item that is not an object comes before any firing
    alert. *)
Theorem twilio_call_without_firing_alert (req : result pyval) :
  (nothing_firing req ->
   exists body code,
     run_call req [] = (Ok (body, code), [])
     /\ (code = 200 \/ code = 500)%Z)
  /\ (forall payload,
         req = Ok payload ->
         find_first_firing_alert payload = Ok PyNone ->
         run_call req [] =
         (Ok (message "No firing alerts, skipping call", 200%Z), []))
  /\ (forall payload e,
         req = Ok payload ->
         find_first_firing_alert payload = Raise e ->
         run_call req [] =
         (Ok (PyDict [(lit "error", PyStr (lit "Internal server error"));
                      (lit "details", PyStr (exn_str e))], 500%Z), []))
  /\ (forall e,
         req = Raise e ->
         run_call req [] =
         (Ok (PyDict [(lit "error", PyStr (lit "Internal server error"));
                      (lit "details", PyStr (exn_str e))], 500%Z), []))
  /\ (forall payload alerts,
         req = Ok payload ->
         batch_of payload alerts ->
         Forall (fun x => firing x = false) alerts ->
         run_call req [] =
         (Ok (message "No firing alerts, skipping call", 200%Z), []))
  /\ (forall d v,
         req = Ok (PyDict d) ->
         lookup (lit "alerts") d = Some v ->
         v = PyStr [] \/ v = PyDict [] ->
         run_call req [] =
         (Ok (message "No firing alerts, skipping call", 200%Z), []))
  /\ (forall payload,
         req = Ok payload ->
         ~ is_alert payload ->
         run_call req [] =
         (Ok (internal_error (AttributeError payload "get")), []))
  /\ (forall d v,
         req = Ok (PyDict d) ->
         lookup (lit "alerts") d = Some v ->
         not_iterable v = true ->
         run_call req [] =
         (Ok (internal_error (TypeError_not_iterable v)), []))
  /\ (forall d pre x post,
         req = Ok (PyDict d) ->
         lookup (lit "alerts") d = Some (PyList (pre ++ x :: post)) ->
         Forall is_alert pre ->
         Forall (fun a => firing a = false) pre ->
         ~ is_alert x ->
         run_call req [] =
         (Ok (internal_error (AttributeError x "get")), [])).
Proof.
  assert (Hraise : forall payload e,
             find_first_firing_alert payload = Raise e ->
             run_call (Ok payload) [] = (Ok (internal_error e), [])).
  { intros payload e Hf. unfold twilio_call, try_except, bind, lift.
    now rewrite Hf. }
  split; [apply twilio_call_nothing_firing|].
  split; [intros payload -> Hf; now apply twilio_call_skips|].
  split; [intros payload e -> Hf; now apply Hraise|].
  split; [intros e ->; reflexivity|].
  split.
  { intros payload alerts -> Hb Hn.
    apply twilio_call_skips.
    rewrite (find_first_firing_alert_batch Hb).
    apply first_firing_none; [|assumption].
    now destruct Hb as (d & _ & _ & Hall). }
  split.
  { intros d v -> Hv Hempty. apply twilio_call_skips.
    unfold find_first_firing_alert. simpl. rewrite Hv.
    destruct Hempty as [-> | ->]; reflexivity. }
  split.
  { intros payload -> Hp. apply Hraise.
    destruct payload; try reflexivity. destruct Hp. eexists; reflexivity. }
  split.
  { intros d v -> Hv Hni. apply Hraise.
    unfold find_first_firing_alert. simpl. rewrite Hv.
    destruct v; try discriminate Hni; reflexivity. }
  intros d pre x post -> Hv Hpre Hn Hx. apply Hraise.
  unfold find_first_firing_alert. simpl. rewrite Hv. simpl.
  now apply first_firing_not_alert.
Qed.

(** C8, as amended: only the fan-out list is checked before use, and a
    request that needs it while it is unset or empty is answered 400 before
    any provider call; the account id, the auth token, the from-number and
    the single to-number are passed to the provider as they were read, so
    /twilio-call never answers 400 and, given a firing alert, issues its
    call whatever their values. *)
Theorem only_fanout_list_is_validated (req : result pyval) :
  (TO_NUMBERS_ALL env = None \/ TO_NUMBERS_ALL env = Some [] ->
   run_call_all req [] = (Ok (not_set, 400%Z), []))
  /\ (exists body code tr,
         run_call req [] = (Ok (body, code), tr) /\ code <> 400%Z)
  /\ (forall twiml,
         announces req twiml ->
         snd (run_call req []) =
         [{| url := lit "https://api.twilio.com/2010-04-01/Accounts/"
                      ++ format_setting (TWILIO_ACCOUNT_SID env)
                      ++ lit "/Calls.json";
             auth := (TWILIO_ACCOUNT_SID env, TWILIO_AUTH_TOKEN env);
             From := TWILIO_FROM_NUMBER env;
             To := TO_NUMBER env;
             Twiml := twiml |}]).
Proof.
  split; [apply twilio_call_all_not_set|split].
  - destruct (twilio_call_total py_repr env requests_post req)
      as (body & code & tr & H & Hc).
    exists body, code, tr. split; [assumption|lia].
  - intros twiml Ha.
    destruct (twilio_call_announces env requests_post Ha)
      as (body & code & -> & _).
    reflexivity.
Qed.

(** C9: the status test is exact string equality.  An alert the parser
    returns carries the status [firing] letter for letter, alerts with
    status [Firing] or [FIRING] are passed over, and either handler issues
    a provider call only for a payload in which the parser found such an
    alert. *)
Theorem status_match_is_exact (payload : pyval) :
  (forall a,
      find_first_firing_alert payload = Ok a ->
      a <> PyNone ->
      exists d, a = PyDict d
                /\ lookup (lit "status") d = Some (PyStr (lit "firing")))
  /\ find_first_firing_alert
       (Sample.payload [Sample.alert "Firing" "A"; Sample.alert "FIRING" "B"])
     = Ok PyNone
  /\ (snd (run_call (Ok payload) []) <> []
      \/ snd (run_call_all (Ok payload) []) <> [] ->
      exists d, find_first_firing_alert payload = Ok (PyDict d)
                /\ lookup (lit "status") d = Some (PyStr (lit "firing"))).
Proof.
  split; [|split; [reflexivity|]].
  - intros a Hf Hne.
    destruct (find_first_firing_alert_selects _ Hf) as [->|Ha];
      [now destruct Hne|].
    now apply firing_status.
  - intros Hcalls.
    destruct (find_first_firing_alert payload) as [a|e] eqn:Hf.
    + destruct (find_first_firing_alert_selects _ Hf) as [->|Ha].
      * exfalso.
        assert (Hno : forall twiml, ~ announces (Ok payload) twiml).
        { intros twiml (data & a & name & [= <-] & Hf' & Ha & _).
          rewrite Hf in Hf'. injection Hf' as <-. discriminate. }
        destruct Hcalls as [H|H]; apply H;
          [now apply twilio_call_quiet|now apply twilio_call_all_quiet].
      * apply firing_status in Ha as (d & -> & Hd). eauto.
    + exfalso.
      assert (Hno : forall twiml, ~ announces (Ok payload) twiml).
      { intros twiml (data & a & name & [= <-] & Hf' & _). congruence. }
      destruct Hcalls as [H|H]; apply H;
        [now apply twilio_call_quiet|now apply twilio_call_all_quiet].
Qed.

End Claims.

(** ** More on the call handlers *)

Section Dispatch.

Variable py_repr : pyval -> str.
Variable env : Config.
Variable requests_post : Transport.

Local Abbreviation run_call := (twilio_call py_repr env requests_post).
Local Abbreviation run_call_all :=
  (twilio_call_all py_repr env requests_post).
Local Abbreviation announces := (announces py_repr).
Local Abbreviation answers := (answers env requests_post).
Local Abbreviation call twiml :=
  (fun to_number => call_to env (Some to_number) twiml).
Local Abbreviation breaks := (breaks env requests_post).

Lemma call_each_breaks twiml pre to_number post e : forall rs results tr,
  answers twiml (List.length tr) pre rs ->
  breaks twiml (List.length tr + List.length pre) to_number e ->
  call_each env requests_post (pre ++ to_number :: post) twiml results tr =
  (Raise e, tr ++ map (call twiml) (pre ++ [to_number])).
Proof.
  induction pre as [|p pre IH]; intros rs results tr Hans Hb.
  - simpl in Hb. rewrite Nat.add_0_r in Hb. simpl.
    unfold bind at 1. unfold initiate_twilio_call.
    destruct Hb as [Hb|(r & Hb & H201 & Hj)]; rewrite Hb; [reflexivity|].
    apply Z.eqb_eq in H201. rewrite H201. unfold bind, lift. now rewrite Hj.
  - inversion Hans as [|? ? r ? rs' Hp Hj Hrest]; subst.
    simpl app. simpl call_each. unfold bind at 1.
    unfold initiate_twilio_call. rewrite Hp.
    assert (Hlen : S (List.length tr) =
                   List.length (tr ++ [call_to env (Some p) twiml]))
      by (rewrite length_app; simpl; lia).
    rewrite Hlen in Hrest.
    assert (Hb' : breaks twiml
                    (List.length (tr ++ [call_to env (Some p) twiml])
                     + List.length pre) to_number e).
    { rewrite <- Hlen. simpl in Hb.
      now replace (S (List.length tr) + List.length pre)%nat
        with (List.length tr + S (List.length pre))%nat by lia. }
    destruct (status_code r =? 201)%Z eqn:E.
    + apply Z.eqb_eq in E. destruct (Hj E) as [j Hjson].
      unfold bind, lift. rewrite Hjson.
      rewrite (IH rs' _ _ Hrest Hb'), <- !app_assoc. reflexivity.
    + rewrite (IH rs' _ _ Hrest Hb'), <- !app_assoc. reflexivity.
Qed.

(** Either every call is answered, or some call breaks the loop. *)
Lemma answers_or_breaks twiml tos : forall n,
  (exists rs, answers twiml n tos rs)
  \/ (exists pre to_number post rs e,
         tos = pre ++ to_number :: post
         /\ answers twiml n pre rs
         /\ breaks twiml (n + List.length pre) to_number e).
Proof.
  induction tos as [|t tos IH]; intros n.
  - left. exists []. constructor.
  - destruct (requests_post n (call_to env (Some t) twiml)) as [r|e] eqn:Hp.
    + assert (Hjson : (exists e, status_code r = 201%Z /\ json r = Raise e)
                      \/ (status_code r = 201%Z -> exists j, json r = Ok j)).
      { destruct (json r) as [j|e]; [right; eauto|].
        destruct (Z.eq_dec (status_code r) 201); [left; eauto|].
        right. intros H. destruct (n0 H). }
      destruct Hjson as [(e & H201 & Hj)|Hj].
      * right. exists [], t, tos, [], e. split; [reflexivity|].
        split; [constructor|]. rewrite Nat.add_0_r. right. eauto.
      * destruct (IH (S n)) as [[rs Hrs]|(pre & u & post & rs & e & -> & Hrs & Hb)].
        -- left. exists (r :: rs). now constructor.
        -- right. exists (t :: pre), u, post, (r :: rs), e.
           split; [reflexivity|]. split; [now constructor|].
           simpl. now replace (n + S (List.length pre))%nat
             with (S n + List.length pre)%nat by lia.
    + right. exists [], t, tos, [], e. split; [reflexivity|].
      split; [constructor|]. rewrite Nat.add_0_r. now left.
Qed.

Lemma announces_truthy (data a : pyval) :
  find_first_firing_alert data = Ok a ->
  py_truthy a = true ->
  firing a = true.
Proof.
  intros Hf Ht.
  destruct (find_first_firing_alert_selects _ Hf) as [->|Ha];
    [discriminate|assumption].
Qed.

(** The answer of the fan-out once every call has been answered. *)
Lemma twilio_call_all_answered (req : result pyval) twiml c all rs :
  announces req twiml ->
  TO_NUMBERS_ALL env = Some (c :: all) ->
  answers twiml 0 (to_numbers_of (c :: all)) rs ->
  run_call_all req [] =
  (Ok (calls_processed
         (Z.of_nat (List.length (filter is_created rs)))
         (Z.of_nat (List.length (filter (fun r => negb (is_created r)) rs)))
         (call_results (to_numbers_of (c :: all)) rs),
       if Nat.eqb (List.length (filter (fun r => negb (is_created r)) rs)) 0
       then 200%Z else 207%Z),
   map (call twiml) (to_numbers_of (c :: all))).
Proof.
  intros (data & a & name & -> & Hf & Ha & Hb) Hall Hans.
  assert (Hlen := answers_length Hans).
  unfold twilio_call_all, try_except, bind, lift, ret.
  rewrite Hall, Hf, (firing_truthy _ Ha), Hb. cbn [negb]. cbv beta iota zeta.
  rewrite (call_each_answers (twiml := twiml) (rs := rs) [] [] Hans).
  simpl app.
  rewrite (count_successes_call_results _ _ Hlen).
  rewrite (call_results_length _ _ Hlen).
  assert (Hc := count_created rs). rewrite Hlen in Hc.
  replace (Z.of_nat (List.length (to_numbers_of (c :: all)))
           - Z.of_nat (List.length (filter is_created rs)))%Z
    with (Z.of_nat (List.length
                      (filter (fun r => negb (is_created r)) rs))) by lia.
  destruct (List.length (filter (fun r => negb (is_created r)) rs));
    reflexivity.
Qed.

Lemma twilio_call_all_broken (req : result pyval) twiml c all
      pre to_number post rs e :
  announces req twiml ->
  TO_NUMBERS_ALL env = Some (c :: all) ->
  to_numbers_of (c :: all) = pre ++ to_number :: post ->
  answers twiml 0 pre rs ->
  breaks twiml (List.length pre) to_number e ->
  run_call_all req [] =
  (Ok (internal_error e), map (call twiml) (pre ++ [to_number])).
Proof.
  intros (data & a & name & -> & Hf & Ha & Hb) Hall Htos Hans Hbr.
  unfold twilio_call_all, try_except, bind, lift, ret.
  rewrite Hall, Hf, (firing_truthy _ Ha), Hb. cbn [negb]. cbv beta iota zeta.
  rewrite Htos.
  rewrite (@call_each_breaks twiml pre to_number post e rs [] [] Hans Hbr).
  reflexivity.
Qed.

(** Every way a fan-out request can end. *)
Lemma twilio_call_all_cases (req : result pyval) :
  run_call_all req [] = (Ok (not_set, 400%Z), [])
  \/ run_call_all req [] =
     (Ok (message "No firing alerts, skipping calls", 200%Z), [])
  \/ (exists e, run_call_all req [] = (Ok (internal_error e), []))
  \/ (exists twiml c all rs,
         announces req twiml
         /\ TO_NUMBERS_ALL env = Some (c :: all)
         /\ answers twiml 0 (to_numbers_of (c :: all)) rs)
  \/ (exists twiml c all pre to_number post rs e,
         announces req twiml
         /\ TO_NUMBERS_ALL env = Some (c :: all)
         /\ to_numbers_of (c :: all) = pre ++ to_number :: post
         /\ answers twiml 0 pre rs
         /\ breaks twiml (List.length pre) to_number e).
Proof.
  destruct (TO_NUMBERS_ALL env) as [[|c all]|] eqn:Hall;
    [left; apply twilio_call_all_not_set; auto|
    |left; apply twilio_call_all_not_set; auto].
  right.
  destruct req as [data|e];
    [|right; left; exists e; unfold twilio_call_all, try_except, bind, lift;
      now rewrite Hall].
  destruct (find_first_firing_alert data) as [a|e] eqn:Hf;
    [|right; left; exists e; unfold twilio_call_all, try_except, bind, lift;
      now rewrite Hall, Hf].
  destruct (py_truthy a) eqn:Ht;
    [|left; unfold twilio_call_all, try_except, bind, lift, ret;
      now rewrite Hall, Hf, Ht].
  assert (Ha := announces_truthy _ Hf Ht).
  destruct (build_twiml_from_alert py_repr a) as [[name twiml]|e] eqn:Hb;
    [|right; left; exists e; unfold twilio_call_all, try_except, bind, lift;
      now rewrite Hall, Hf, Ht, Hb].
  assert (Hann : announces (Ok data) twiml)
    by (exists data, a, name; auto).
  right. right.
  destruct (answers_or_breaks twiml (to_numbers_of (c :: all)) 0)
    as [[rs Hrs]|(pre & u & post & rs & e & Htos & Hrs & Hbr)].
  - left. exists twiml, c, all, rs. auto.
  - right. exists twiml, c, all, pre, u, post, rs, e. auto.
Qed.

(** The single call of /twilio-call and the answer made of its outcome. *)
Lemma twilio_call_dispatches (req : result pyval) (twiml : str) :
  announces req twiml ->
  run_call req [] =
  (Ok match requests_post 0 (call_to env (TO_NUMBER env) twiml) with
      | Ok r =>
          if (status_code r =? 201)%Z then
            match json r with
            | Ok _ => (message "Call initiated successfully", 200%Z)
            | Raise e => internal_error e
            end
          else
            (PyDict [(lit "error", PyStr (lit "Failed to initiate call"));
                     (lit "details", PyStr (text r))], 500%Z)
      | Raise e => internal_error e
      end,
   [call_to env (TO_NUMBER env) twiml]).
Proof.
  intros (data & a & name & -> & Hf & Ha & Hb).
  unfold twilio_call, try_except, bind, lift, ret, initiate_twilio_call.
  rewrite Hf, (firing_truthy _ Ha), Hb. simpl.
  destruct (requests_post 0 _) as [r|e]; [|reflexivity].
  destruct (status_code r =? 201)%Z; [|reflexivity].
  destruct (json r); reflexivity.
Qed.

Lemma twilio_call_cases (req : result pyval) :
  run_call req [] =
  (Ok (message "No firing alerts, skipping call", 200%Z), [])
  \/ (exists e, run_call req [] = (Ok (internal_error e), []))
  \/ (exists twiml, announces req twiml).
Proof.
  destruct req as [data|e]; [|right; left; exists e; reflexivity].
  destruct (find_first_firing_alert data) as [a|e] eqn:Hf;
    [|right; left; exists e;
      unfold twilio_call, try_except, bind, lift; now rewrite Hf].
  destruct (py_truthy a) eqn:Ht;
    [|left; unfold twilio_call, try_except, bind, lift, ret;
      now rewrite Hf, Ht].
  assert (Ha := announces_truthy _ Hf Ht).
  destruct (build_twiml_from_alert py_repr a) as [[name twiml]|e] eqn:Hb;
    [|right; left; exists e;
      unfold twilio_call, try_except, bind, lift; now rewrite Hf, Ht, Hb].
  right. right. exists twiml, data, a, name. auto.
Qed.

(** X6: /twilio-call reports [Call initiated successfully] only when it
    placed its one call and the provider answered it with 201. *)
Theorem twilio_call_success_means_created
        (req : result pyval) (code : Z) (tr : list Call) :
  run_call req [] = (Ok (message "Call initiated successfully", code), tr) ->
  exists twiml r,
    announces req twiml
    /\ tr = [call_to env (TO_NUMBER env) twiml]
    /\ requests_post 0 (call_to env (TO_NUMBER env) twiml) = Ok r
    /\ status_code r = 201%Z
    /\ code = 200%Z.
Proof.
  intros H.
  destruct (twilio_call_cases req) as [E|[[e E]|[twiml Ha]]].
  - rewrite E in H. vm_compute in H. discriminate.
  - rewrite E in H. unfold internal_error, message in H. discriminate.
  - rewrite (twilio_call_dispatches Ha) in H.
    exists twiml.
    destruct (requests_post 0 (call_to env (TO_NUMBER env) twiml)) as [r|e];
      [|unfold internal_error, message in H; discriminate].
    exists r.
    destruct (status_code r =? 201)%Z eqn:E201;
      [|unfold message in H; discriminate].
    apply Z.eqb_eq in E201.
    destruct (json r);
      [|unfold internal_error, message in H; discriminate].
    injection H as <- <-. auto.
Qed.

(** X7: how /twilio-call reports a call that did not go through.  An answer
    other than 201 gives 500 [Failed to initiate call] with the provider's
    text as details; an exception of the transport gives 500 [Internal
    server error] with the exception's message; either way the one call was
    placed and is not repeated. *)
Theorem twilio_call_reports_failure (req : result pyval) (twiml : str) :
  announces req twiml ->
  (forall r,
      requests_post 0 (call_to env (TO_NUMBER env) twiml) = Ok r ->
      status_code r <> 201%Z ->
      run_call req [] =
      (Ok (PyDict [(lit "error", PyStr (lit "Failed to initiate call"));
                   (lit "details", PyStr (text r))], 500%Z),
       [call_to env (TO_NUMBER env) twiml]))
  /\ (forall e,
         requests_post 0 (call_to env (TO_NUMBER env) twiml) = Raise e ->
         run_call req [] =
         (Ok (PyDict [(lit "error", PyStr (lit "Internal server error"));
                      (lit "details", PyStr (exn_str e))], 500%Z),
          [call_to env (TO_NUMBER env) twiml])).
Proof.
  intros Ha. rewrite (twilio_call_dispatches Ha). split.
  - intros r -> Hne. apply Z.eqb_neq in Hne. now rewrite Hne.
  - intros e ->. reflexivity.
Qed.

(** X8: a call that raises ends the fan-out.  When the calls to the targets
    [pre] are answered and the next one raises in the transport, or is
    answered 201 with a body that is not JSON, the request is answered 500
    [Internal server error]; the targets after it are not called and the
    results collected so far are not returned. *)
Theorem twilio_call_all_exception_aborts
        (req : result pyval) (twiml all : str)
        (pre : list str) (to_number : str) (post : list str)
        (rs : list Response) (e : exn) :
  announces req twiml ->
  TO_NUMBERS_ALL env = Some all ->
  to_numbers_of all = pre ++ to_number :: post ->
  answers twiml 0 pre rs ->
  breaks twiml (List.length pre) to_number e ->
  run_call_all req [] =
  (Ok (PyDict [(lit "error", PyStr (lit "Internal server error"));
               (lit "details", PyStr (exn_str e))], 500%Z),
   map (call twiml) pre ++ [call twiml to_number]).
Proof.
  intros Ha Hall Htos Hans Hbr.
  destruct all as [|c all'];
    [destruct pre; discriminate Htos|].
  rewrite (@twilio_call_all_broken req twiml c all' pre to_number post rs e
             Ha Hall Htos Hans Hbr).
  now rewrite map_app.
Qed.

Lemma map_PyDict_inj (a b : list dict) : map PyDict a = map PyDict b -> a = b.
Proof.
  revert b; induction a as [|x a IH]; intros [|y b]; simpl;
    try discriminate; [reflexivity|].
  intros [= -> H]. now rewrite (IH _ H).
Qed.

Lemma call_results_to : forall tos rs,
  List.length rs = List.length tos ->
  map (lookup (lit "to")) (call_results tos rs)
  = map (fun t => Some (PyStr t)) tos.
Proof.
  induction tos as [|t tos IH]; intros [|r rs] Hlen; try discriminate;
    [reflexivity|].
  unfold call_results in *. simpl combine. simpl map at 2.
  cbn [map fst snd]. rewrite IH by (simpl in Hlen; lia).
  unfold call_result. destruct (status_code r =? 201)%Z; reflexivity.
Qed.

(** X9: what a [Calls processed] answer guarantees, whatever the provider
    did.  The results are one per configured target, in order, each naming
    its target; exactly that many calls were issued, to those targets in
    that order; successes and failures are non-negative and add up to the
    number of targets; and the status is 200 when failures = 0 and 207
    otherwise. *)
Theorem twilio_call_all_processed
        (req : result pyval) (successes failures : Z)
        (results : list dict) (code : Z) (tr : list Call) :
  run_call_all req [] =
  (Ok (calls_processed successes failures results, code), tr) ->
  map (lookup (lit "to")) results
  = map (fun t => Some (PyStr t)) (effective_targets env)
  /\ map To tr = map Some (effective_targets env)
  /\ (0 <= successes /\ 0 <= failures
      /\ successes + failures
         = Z.of_nat (List.length (effective_targets env)))%Z
  /\ (failures = 0%Z /\ code = 200%Z \/ (0 < failures)%Z /\ code = 207%Z).
Proof.
  intros H.
  destruct (twilio_call_all_cases req)
    as [E|[E|[[e E]|[(twiml & c & all & rs & Ha & Hall & Hans)
                    |(twiml & c & all & pre & u & post & rs & e
                      & Ha & Hall & Htos & Hans & Hbr)]]]].
  - rewrite E in H. unfold not_set, calls_processed in H. discriminate.
  - rewrite E in H. unfold message, calls_processed in H. discriminate.
  - rewrite E in H. unfold internal_error, calls_processed in H.
    discriminate.
  - rewrite (@twilio_call_all_answered req twiml c all rs Ha Hall Hans) in H.
    unfold calls_processed in H.
    injection H as <- <- Hres <- <-. apply map_PyDict_inj in Hres.
    subst results.
    assert (Hlen := answers_length Hans).
    assert (Hc := count_created rs). rewrite Hlen in Hc.
    unfold effective_targets. rewrite Hall.
    split; [now apply call_results_to|].
    split; [rewrite map_map; reflexivity|].
    split; [lia|].
    destruct (List.length (filter (fun r => negb (is_created r)) rs));
      [left; split; reflexivity|right; split; [lia|reflexivity]].
  - rewrite (@twilio_call_all_broken req twiml c all pre u post rs e Ha Hall Htos Hans Hbr) in H.
    unfold internal_error, calls_processed in H. discriminate.
Qed.

Lemma firstn_next {A} (pre : list A) (x : A) (post : list A) :
  firstn (S (List.length pre)) (pre ++ x :: post) = pre ++ [x].
Proof.
  induction pre as [|p pre IH]; [reflexivity|].
  simpl. f_equal. exact IH.
Qed.

(** X10: whatever the request and the provider, the calls of a fan-out are
    calls to the first so many configured targets, one each, in the
    configured order, all carrying the same script: no target is called
    twice or out of turn, and no number outside the list is called. *)
Theorem twilio_call_all_calls_in_order (req : result pyval) :
  exists n twiml,
    snd (run_call_all req [])
    = map (call twiml) (firstn n (effective_targets env)).
Proof.
  destruct (twilio_call_all_cases req)
    as [E|[E|[[e E]|[(twiml & c & all & rs & Ha & Hall & Hans)
                    |(twiml & c & all & pre & u & post & rs & e
                      & Ha & Hall & Htos & Hans & Hbr)]]]];
    try (exists 0%nat, []; rewrite E; reflexivity).
  - exists (List.length (to_numbers_of (c :: all))), twiml.
    rewrite (@twilio_call_all_answered req twiml c all rs Ha Hall Hans).
    unfold effective_targets. rewrite Hall, firstn_all. reflexivity.
  - exists (S (List.length pre)), twiml.
    rewrite (@twilio_call_all_broken req twiml c all pre u post rs e Ha Hall Htos Hans Hbr).
    unfold effective_targets. rewrite Hall, Htos, firstn_next. reflexivity.
Qed.

(** X11: no exception leaves a call handler.  Every request is answered,
    by /twilio-call with 200 or 500 after at most one provider call, by
    /twilio-call-all with 200, 207, 400 or 500. *)
Theorem call_handlers_always_answer (req : result pyval) :
  (exists body code tr,
      run_call req [] = (Ok (body, code), tr)
      /\ (code = 200 \/ code = 500)%Z
      /\ (List.length tr <= 1)%nat)
  /\ (exists body code tr,
         run_call_all req [] = (Ok (body, code), tr)
         /\ (code = 200 \/ code = 207 \/ code = 400 \/ code = 500)%Z).
Proof.
  split.
  - destruct (twilio_call_cases req) as [E|[[e E]|[twiml Ha]]].
    + rewrite E. do 3 eexists. split; [reflexivity|]. simpl. auto.
    + rewrite E. unfold internal_error. do 3 eexists.
      split; [reflexivity|]. simpl. auto.
    + rewrite (twilio_call_dispatches Ha).
      destruct (requests_post 0 _) as [r|e];
        [destruct (status_code r =? 201)%Z; [destruct (json r)|]|];
        unfold internal_error; do 3 eexists;
        (split; [reflexivity|]); simpl; auto.
  - destruct (twilio_call_all_cases req)
      as [E|[E|[[e E]|[(twiml & c & all & rs & Ha & Hall & Hans)
                      |(twiml & c & all & pre & u & post & rs & e
                        & Ha & Hall & Htos & Hans & Hbr)]]]].
    + rewrite E. do 3 eexists. split; [reflexivity|]. auto.
    + rewrite E. do 3 eexists. split; [reflexivity|]. auto.
    + rewrite E. unfold internal_error. do 3 eexists.
      split; [reflexivity|]. auto.
    + rewrite (@twilio_call_all_answered req twiml c all rs Ha Hall Hans).
      do 3 eexists. split; [reflexivity|].
      destruct (Nat.eqb _ 0); auto.
    + rewrite (@twilio_call_all_broken req twiml c all pre u post rs e Ha Hall Htos Hans Hbr).
      unfold internal_error. do 3 eexists. split; [reflexivity|]. auto.
Qed.

(** X12: a fan-out request without a firing alert.  With TO_NUMBERS_ALL
    set to a non-empty string, a payload that is a batch none of whose
    alerts is firing is answered 200 [No firing alerts, skipping calls] and
    no provider call is issued, however many targets are configured. *)
Theorem twilio_call_all_without_firing_alert
        (payload : pyval) (alerts : list pyval) (c : N) (all : str) :
  TO_NUMBERS_ALL env = Some (c :: all) ->
  batch_of payload alerts ->
  Forall (fun a => firing a = false) alerts ->
  run_call_all (Ok payload) [] =
  (Ok (message "No firing alerts, skipping calls", 200%Z), []).
Proof.
  intros Hall Hb Hn.
  unfold twilio_call_all, try_except, bind, lift, ret.
  rewrite Hall, (find_first_firing_alert_batch Hb).
  rewrite first_firing_none; [reflexivity| |assumption].
  now destruct Hb as (d & _ & _ & Halerts).
Qed.

End Dispatch.

(** ** The voice script *)

Lemma plain_char_not_markup (c : N) :
  plain_char c = true -> (c =? 60)%N = false /\ (c =? 38)%N = false.
Proof.
  unfold plain_char. intros H.
  apply andb_true_iff in H as [H _].
  apply andb_true_iff in H as [H H38].
  apply andb_true_iff in H as [_ H60].
  apply negb_true_iff in H38, H60. now split.
Qed.

(** Plain characters are read as they stand. *)
Lemma lex_plain (s : str) : forall toks acc,
  forallb plain_char s = true ->
  fold_left lex_step s (toks, InText acc) = (toks, InText (rev s ++ acc)).
Proof.
  induction s as [|c s IH]; intros toks acc H; [reflexivity|].
  simpl in H. apply andb_true_iff in H as [Hc Hs].
  destruct (plain_char_not_markup _ Hc) as [H60 H38].
  simpl fold_left. rewrite H60, H38, Hc.
  rewrite (IH _ _ Hs). simpl rev. now rewrite <- app_assoc.
Qed.

Lemma lex_prefix :
  fold_left lex_step twiml_prefix ([], InText []) =
  ([TOpen (lit "Say"); TOpen (lit "Response")],
   InText (rev (lit "Alert triggered: "))).
Proof. reflexivity. Qed.

Lemma lex_suffix (toks : list token) (acc : str) :
  fold_left lex_step twiml_suffix (toks, InText acc) =
  (TClose (lit "Response") :: TClose (lit "Say") :: push_text acc toks,
   InText []).
Proof. reflexivity. Qed.

Lemma tokenize_script (name : str) :
  forallb plain_char name = true ->
  tokenize (twiml_prefix ++ name ++ twiml_suffix) =
  Some [TOpen (lit "Response"); TOpen (lit "Say");
        TText (lit "Alert triggered: " ++ name);
        TClose (lit "Say"); TClose (lit "Response")].
Proof.
  intros H. unfold tokenize.
  rewrite !fold_left_app, lex_prefix, (lex_plain _ _ _ H), lex_suffix.
  assert (Hacc : exists c acc,
             rev name ++ rev (lit "Alert triggered: ") = c :: acc).
  { destruct (rev name) as [|c r]; simpl; eauto. }
  destruct Hacc as (c & acc & Hacc).
  unfold push_text at 2. rewrite Hacc, <- Hacc.
  rewrite rev_app_distr, !rev_involutive. reflexivity.
Qed.

Lemma build_twiml_from_alert_verbatim py_repr (alert alertname : pyval) twiml :
  build_twiml_from_alert py_repr alert = Ok (alertname, twiml) ->
  twiml = twiml_prefix ++ format_value py_repr alertname ++ twiml_suffix.
Proof.
  unfold build_twiml_from_alert.
  destruct (py_get alert "labels" (PyDict [])) as [labels|e]; simpl;
    [|discriminate].
  destruct (py_get labels "alertname" (PyStr (lit "Unknown Alert")))
    as [v|e]; simpl; [|discriminate].
  now intros [= <- <-].
Qed.

(** C2, as amended: the builder embeds the alert name in the script as it
    stands, with no escaping; the script is well-formed markup, one
    [Response] holding one [Say] that speaks [Alert triggered: ] followed by
    the name, when the name is a string of characters that need no escaping
    (none of [<], [&], [>], none that XML forbids). *)
Theorem build_twiml_from_alert_embeds_name
        (py_repr : pyval -> str) (alert : pyval) (name twiml : str) :
  build_twiml_from_alert py_repr alert = Ok (PyStr name, twiml) ->
  twiml = twiml_prefix ++ name ++ twiml_suffix
  /\ (forallb plain_char name = true ->
      well_formed twiml = true
      /\ says twiml = Some (lit "Alert triggered: " ++ name)).
Proof.
  intros H. apply build_twiml_from_alert_verbatim in H. cbn [format_value] in H.
  split; [assumption|].
  intros Hplain. subst twiml. unfold well_formed, says.
  rewrite (tokenize_script _ Hplain). split; reflexivity.
Qed.

(** ** The dead man's switch *)

Section Switch.

Variable py_repr : pyval -> str.
Variable env : Config.
Variable requests_post : Transport.

Local Abbreviation srv := (serve py_repr env requests_post).
Local Abbreviation hist := (history py_repr env requests_post).

(** C5, as amended: a liveness check computes elapsed = now -
    last_post_time and leaves the state as it is; when elapsed > 120 it
    answers 500 with status [error], otherwise 200 with status [ok], and
    both bodies report the elapsed seconds. *)
Theorem deadmansswitch_check (now last_post_time : float) :
  deadmansswitch GET now last_post_time =
  (last_post_time,
   if (120 <? now - last_post_time)%float then
     (PyDict [(lit "status", PyStr (lit "error"));
              (lit "message",
               PyStr (lit "No ping received for over 2 minutes"));
              (lit "seconds_since_last_ping",
               PyFloat (now - last_post_time))], 500%Z)
   else
     (PyDict [(lit "status", PyStr (lit "ok"));
              (lit "seconds_since_last_ping",
               PyFloat (now - last_post_time))], 200%Z)).
Proof.
  unfold deadmansswitch.
  destruct (120 <? now - last_post_time)%float; reflexivity.
Qed.

(** Only a ping writes [last_post_time], and it writes the clock reading. *)
Lemma serve_last_post_time (now : float) (req : Request) (last : float) :
  fst (srv now req last) =
  match req with
  | Dms POST => now
  | _ => last
  end.
Proof.
  destruct req as [[| |]|j|j]; try reflexivity;
    unfold serve, deadmansswitch;
    destruct (120 <? now - last)%float; reflexivity.
Qed.

Lemma serve_keeps_or_stamps (now : float) (req : Request) (last : float) :
  fst (srv now req last) = last \/ fst (srv now req last) = now.
Proof.
  rewrite serve_last_post_time. destruct req as [[| |]|j|j]; auto.
Qed.

Lemma history_readings (events : list (float * Request)) :
  forall start t,
    In t (hist start events) -> t = start \/ In t (map fst events).
Proof.
  induction events as [|[now req] rest IH]; intros start t.
  - simpl. intros [<-|[]]; now left.
  - simpl. intros [<-|H]; [now left|].
    apply IH in H as [->|H]; [|now right; right].
    destruct (serve_keeps_or_stamps now req start) as [->| ->]; auto.
Qed.

Lemma history_nondecreasing (events : list (float * Request)) :
  forall start,
    nondecreasing (start :: map fst events) ->
    nondecreasing (hist start events).
Proof.
  induction events as [|[now req] rest IH]; intros start H.
  - exact H.
  - simpl map in H. inversion H as [|? ? Hrefl Hall Htail]; subst.
    inversion Htail as [|? ? Hnow Hall' Htail']; subst.
    inversion Hall as [|? ? Hsn Hsrest]; subst.
    simpl. constructor; [assumption| |].
    + apply Forall_forall. intros t Ht.
      apply history_readings in Ht as [->|Ht].
      * destruct (serve_keeps_or_stamps now req start) as [->| ->];
          assumption.
      * rewrite Forall_forall in Hsrest. now apply Hsrest.
    + apply IH.
      destruct (serve_keeps_or_stamps now req start) as [->| ->];
        [now constructor|assumption].
Qed.

(** C6: [last_post_time] starts as the reading taken at process start, is
    written only by a ping, which stores the current reading, and is left
    as it is by every other request, the liveness check included; so under
    a clock that never runs backwards its successive values never
    decrease. *)
Theorem last_post_time_monotone
        (start : float) (events : list (float * Request)) :
  hd_error (hist start events) = Some start
  /\ (forall now req last,
         fst (srv now req last) =
         match req with
         | Dms POST => now
         | _ => last
         end)
  /\ (nondecreasing (start :: map fst events) ->
      nondecreasing (hist start events)).
Proof.
  split; [destruct events as [|[now req] rest]; reflexivity|].
  split; [apply serve_last_post_time|apply history_nondecreasing].
Qed.

End Switch.

(** ** More on the fan-out list *)

Unset Implicit Arguments.

Lemma lstrip_decompose (s : str) :
  exists sp, s = sp ++ lstrip s /\ spaces sp = true.
Proof.
  induction s as [|c s (sp & Hs & Hsp)]; [exists []; auto|].
  simpl. destruct (is_space c) eqn:E.
  - exists (c :: sp). simpl. rewrite E, Hsp. split; [now f_equal|reflexivity].
  - exists []. auto.
Qed.

Lemma lstrip_head (s : str) (c : N) (t : str) :
  lstrip s = c :: t -> is_space c = false.
Proof.
  induction s as [|x s IH]; simpl; [discriminate|].
  destruct (is_space x) eqn:E; [exact IH|].
  now intros [= <- _].
Qed.

Lemma spaces_rev (s : str) : spaces (rev s) = spaces s.
Proof.
  unfold spaces. induction s as [|c s IH]; [reflexivity|].
  simpl. rewrite forallb_app, IH. simpl. rewrite andb_true_r.
  apply andb_comm.
Qed.

Lemma rstrip_decompose (s : str) :
  exists sp, s = rstrip s ++ sp /\ spaces sp = true.
Proof.
  destruct (lstrip_decompose (rev s)) as (sp & Hs & Hsp).
  exists (rev sp). split; [|now rewrite spaces_rev].
  unfold rstrip. rewrite <- rev_app_distr, <- Hs. now rewrite rev_involutive.
Qed.

Lemma strip_trimmed (s : str) : strip s <> [] -> trimmed (strip s) = true.
Proof.
  unfold strip. set (t := lstrip s). intros Hne.
  destruct (rstrip_decompose t) as (sp & Ht & _).
  unfold rstrip in *.
  destruct (lstrip (rev t)) as [|c u] eqn:E; [now destruct Hne|].
  assert (Hc := lstrip_head _ _ _ E).
  simpl rev in *. 
  destruct (rev u ++ [c]) as [|h r] eqn:Er;
    [destruct (rev u); discriminate|].
  unfold trimmed. rewrite <- Er at 1. rewrite last_last, Hc.
  rewrite andb_true_r.
  unfold t in Ht. destruct (lstrip s) as [|h' r'] eqn:El; [discriminate|].
  injection Ht as -> _. now rewrite (lstrip_head _ _ _ El).
Qed.

Lemma comma_free_app (a b : str) :
  comma_free (a ++ b) = comma_free a && comma_free b.
Proof. apply forallb_app. Qed.

Lemma strip_comma_free (s : str) :
  comma_free s = true -> comma_free (strip s) = true.
Proof.
  intros H. unfold strip.
  destruct (lstrip_decompose s) as (sp & Hs & _).
  destruct (rstrip_decompose (lstrip s)) as (sp' & Ht & _).
  rewrite Hs, Ht, !comma_free_app in H.
  apply andb_true_iff in H as [_ H]. now apply andb_true_iff in H as [H _].
Qed.

Lemma split_comma_free (s : str) :
  Forall (fun w => comma_free w = true) (split comma s).
Proof.
  induction s as [|c s IH]; simpl; [repeat constructor|].
  destruct (N.eqb c comma) eqn:E; [constructor; [reflexivity|assumption]|].
  destruct (split comma s) as [|w ws]; inversion IH; subst;
    constructor; simpl; try rewrite E; auto.
Qed.

(** X13: every number the fan-out calls is a non-empty piece of the
    setting with no white space at either end and no comma in it. *)
Theorem to_numbers_of_entries (all : str) :
  Forall (fun n => trimmed n = true /\ comma_free n = true)
         (to_numbers_of all).
Proof.
  unfold to_numbers_of.
  assert (H := split_comma_free all).
  induction H as [|w ws Hw _ IH]; [constructor|].
  simpl. destruct (strip w) as [|c t] eqn:E; [exact IH|].
  simpl. constructor; [|exact IH]. rewrite E. split.
  - rewrite <- E. apply strip_trimmed. rewrite E. discriminate.
  - rewrite <- E. now apply strip_comma_free.
Qed.

Lemma space_not_comma (c : N) : is_space c = true -> N.eqb c comma = false.
Proof.
  intros H. destruct (N.eqb_spec c comma) as [->|]; [|reflexivity].
  discriminate H.
Qed.

Lemma spaces_comma_free (s : str) : spaces s = true -> comma_free s = true.
Proof.
  unfold spaces, comma_free. induction s as [|c s IH]; [reflexivity|].
  simpl. intros H. apply andb_true_iff in H as [Hc Hs].
  now rewrite (space_not_comma _ Hc), IH.
Qed.

Lemma split_one (x : str) : comma_free x = true -> split comma x = [x].
Proof.
  induction x as [|c x IH]; [reflexivity|].
  simpl. intros H. apply andb_true_iff in H as [Hc Hx].
  apply negb_true_iff in Hc. now rewrite Hc, IH.
Qed.

Lemma split_cons (x s : str) :
  comma_free x = true ->
  split comma (x ++ comma :: s) = x :: split comma s.
Proof.
  induction x as [|c x IH]; [reflexivity|].
  simpl. intros H. apply andb_true_iff in H as [Hc Hx].
  apply negb_true_iff in Hc. now rewrite Hc, IH.
Qed.

Lemma split_join_commas (l : list str) :
  l <> [] ->
  Forall (fun x => comma_free x = true) l ->
  split comma (join_commas l) = l.
Proof.
  intros Hne H. induction H as [|x l Hx Hl IH]; [now destruct Hne|].
  destruct l as [|y l]; [now apply split_one|].
  change (join_commas (x :: y :: l)) with (x ++ comma :: join_commas (y :: l)).
  rewrite (split_cons _ _ Hx), IH; [reflexivity|discriminate].
Qed.

Lemma lstrip_spaces_app (a s : str) :
  spaces a = true -> lstrip (a ++ s) = lstrip s.
Proof.
  unfold spaces. induction a as [|c a IH]; [reflexivity|].
  simpl. intros H. apply andb_true_iff in H as [Hc Ha]. now rewrite Hc, IH.
Qed.

Lemma rev_last (x : str) (d : N) :
  x <> [] -> rev x = last x d :: rev (removelast x).
Proof.
  intros H. rewrite (app_removelast_last d H) at 1.
  now rewrite rev_app_distr.
Qed.

Lemma strip_padded (a x b : str) :
  spaces a = true -> spaces b = true -> trimmed x = true ->
  strip (a ++ x ++ b) = x.
Proof.
  intros Ha Hb Hx. unfold strip. rewrite (lstrip_spaces_app _ _ Ha).
  destruct x as [|c x]; [discriminate|].
  unfold trimmed in Hx. apply andb_true_iff in Hx as [Hc Hl].
  apply negb_true_iff in Hc, Hl.
  assert (Hrev : lstrip (rev (c :: x)) = rev (c :: x)).
  { rewrite (rev_last (c :: x) c) by discriminate.
    cbn [lstrip]. now rewrite Hl. }
  cbn [app lstrip]. rewrite Hc.
  unfold rstrip. change (c :: x ++ b) with ((c :: x) ++ b).
  rewrite rev_app_distr, lstrip_spaces_app by now rewrite spaces_rev.
  rewrite Hrev. apply rev_involutive.
Qed.

Lemma well_padded_comma_free (e : str * str * str) :
  well_padded e = true -> comma_free (padded e) = true.
Proof.
  destruct e as [[a x] b]. unfold well_padded, padded. intros H.
  apply andb_true_iff in H as [H Hx].
  apply andb_true_iff in H as [H _].
  apply andb_true_iff in H as [Ha Hb].
  rewrite !comma_free_app, Hx, (spaces_comma_free _ Ha),
    (spaces_comma_free _ Hb). reflexivity.
Qed.

Lemma strip_well_padded (e : str * str * str) :
  well_padded e = true ->
  strip (padded e) = number_of e /\ number_of e <> [].
Proof.
  destruct e as [[a x] b]. unfold well_padded, padded, number_of. intros H.
  apply andb_true_iff in H as [H _].
  apply andb_true_iff in H as [H Hx].
  apply andb_true_iff in H as [Ha Hb].
  split; [now apply strip_padded|].
  destruct x; [discriminate|discriminate].
Qed.

(** X14: reading back a setting.  When the setting is numbers joined by
    commas, each with any white space around it, and each number is
    non-empty, has no white space at its ends and no comma, the fan-out list
    is exactly those numbers, in order, duplicates kept. *)
Theorem to_numbers_of_join (l : list (str * str * str)) :
  Forall (fun e => well_padded e = true) l ->
  to_numbers_of (join_commas (map padded l)) = map number_of l.
Proof.
  intros H. destruct l as [|e l]; [reflexivity|].
  unfold to_numbers_of. rewrite split_join_commas.
  - induction H as [|e' l' He _ IH]; [reflexivity|].
    destruct (strip_well_padded _ He) as [Hs Hn].
    cbn [map filter]. rewrite Hs.
    destruct (number_of e') as [|c x] eqn:E; [now destruct Hn|].
    cbn [py_truthy map]. rewrite Hs. f_equal. exact IH.
  - discriminate.
  - apply Forall_map. eapply Forall_impl; [|exact H].
    apply well_padded_comma_free.
Qed.

(** *** The derivation of the list *)

Lemma join_commas_split (s : str) : join_commas (split comma s) = s.
Proof.
  induction s as [|c s IH]; [reflexivity|].
  simpl. destruct (N.eqb c comma) eqn:E.
  - apply N.eqb_eq in E. subst c.
    destruct (split comma s) as [|w ws] eqn:Es;
      [now destruct (split_not_nil comma s)|].
    change (join_commas ([] :: w :: ws)) with (comma :: join_commas (w :: ws)).
    now rewrite IH.
  - destruct (split comma s) as [|w ws] eqn:Es;
      [now destruct (split_not_nil comma s)|].
    rewrite <- IH. destruct ws; reflexivity.
Qed.

(** [strip] removes white space from both ends and nothing else. *)
Lemma strip_decompose (w : str) :
  exists a b,
    w = a ++ strip w ++ b
    /\ spaces a = true /\ spaces b = true
    /\ (strip w = [] \/ trimmed (strip w) = true).
Proof.
  destruct (lstrip_decompose w) as (a & Hw & Ha).
  destruct (rstrip_decompose (lstrip w)) as (b & Hl & Hb).
  exists a, b. split; [|split; [assumption|split; [assumption|]]].
  - unfold strip. now rewrite <- Hl.
  - destruct (strip w) eqn:E; [now left|right].
    rewrite <- E. apply strip_trimmed. rewrite E. discriminate.
Qed.

Lemma to_numbers_of_padded (l : list (str * str * str)) :
  Forall (fun e => well_padded e = true) l ->
  to_numbers_of (join_commas (map padded l)) = map number_of l.
Proof.
  intros H. destruct l as [|e l]; [reflexivity|].
  unfold to_numbers_of. rewrite split_join_commas.
  - induction H as [|e' l' He _ IH]; [reflexivity|].
    destruct (strip_well_padded _ He) as [Hs Hn].
    cbn [map filter]. rewrite Hs.
    destruct (number_of e') as [|c x] eqn:E; [now destruct Hn|].
    cbn [py_truthy map]. rewrite Hs. f_equal. exact IH.
  - discriminate.
  - apply Forall_map. eapply Forall_impl; [|exact H].
    apply well_padded_comma_free.
Qed.

Section FanoutList.

Variable py_repr : pyval -> str.
Variable env : Config.
Variable requests_post : Transport.

Local Abbreviation run_call_all :=
  (twilio_call_all py_repr env requests_post).
Local Abbreviation announces := (announces py_repr).

(** With a setting of commas and white space no request leads to a call. *)
Lemma twilio_call_all_blank_quiet (all : str) (req : result pyval) :
  forallb comma_or_space all = true ->
  TO_NUMBERS_ALL env = Some all ->
  snd (run_call_all req []) = [].
Proof.
  intros Hblank Hall.
  apply to_numbers_of_blank in Hblank.
  destruct (twilio_call_all_cases py_repr env requests_post req)
    as [E|[E|[[e E]|[(twiml & c & all' & rs & Ha & Hall' & Hans)
                    |(twiml & c & all' & pre & u & post & rs & e
                      & Ha & Hall' & Htos & Hans & Hbr)]]]];
    try (rewrite E; reflexivity).
  - rewrite (@twilio_call_all_answered py_repr env requests_post
               req twiml c all' rs Ha Hall' Hans).
    rewrite Hall in Hall'. injection Hall' as Heq. subst all.
    now rewrite Hblank.
  - rewrite Hall in Hall'. injection Hall' as Heq. subst all.
    rewrite Hblank in Htos. destruct pre; discriminate Htos.
Qed.

(** C10, as amended: the fan-out list is the configured string split on
    commas (the pieces hold no comma and, joined by commas, give the string
    back), each piece trimmed (white space, and nothing else, removed from
    both ends), the pieces left empty dropped; so numbers written between
    commas with white space around them are read back as they are, in
    order.  A setting made only of commas and white space gives the empty
    list: it leads to no provider call whatever the request, and, when it
    is not the empty string and the request holds a firing alert whose
    script is built, to the answer 200 with successes = 0, failures = 0 and
    no results. *)
Theorem fanout_list_derivation (all : str) :
  (join_commas (split comma all) = all
   /\ Forall (fun w => comma_free w = true) (split comma all))
  /\ (forall w,
         exists a b,
           w = a ++ strip w ++ b
           /\ spaces a = true /\ spaces b = true
           /\ (strip w = [] \/ trimmed (strip w) = true))
  /\ to_numbers_of all = fanout_targets all
  /\ (forall l,
         Forall (fun e => well_padded e = true) l ->
         all = join_commas (map padded l) ->
         to_numbers_of all = map number_of l)
  /\ (forallb comma_or_space all = true -> to_numbers_of all = [])
  /\ (forall req,
         forallb comma_or_space all = true ->
         TO_NUMBERS_ALL env = Some all ->
         snd (run_call_all req []) = [])
  /\ (forall req twiml,
         forallb comma_or_space all = true ->
         all <> [] ->
         TO_NUMBERS_ALL env = Some all ->
         announces req twiml ->
         run_call_all req [] = (Ok (calls_processed 0 0 [], 200%Z), [])).
Proof.
  split; [split; [apply join_commas_split|apply split_comma_free]|].
  split; [apply strip_decompose|].
  split; [apply to_numbers_of_fanout_targets|].
  split; [intros l Hl ->; now apply to_numbers_of_padded|].
  split; [apply to_numbers_of_blank|].
  split; [intros req; apply twilio_call_all_blank_quiet|].
  intros req twiml Hblank Hne Hall (data & a & name & -> & Hf & Ha & Hb).
  destruct all as [|c all']; [now destruct Hne|].
  unfold twilio_call_all, try_except, bind, lift, ret.
  rewrite Hall, Hf, (firing_truthy _ Ha), Hb. cbn [negb]. cbv beta iota zeta.
  rewrite to_numbers_of_blank by assumption. reflexivity.
Qed.

End FanoutList.

(** ** More on the dead man's switch *)

Section Pings.

Variable py_repr : pyval -> str.
Variable env : Config.
Variable requests_post : Transport.

Local Abbreviation srv := (serve py_repr env requests_post).
Local Abbreviation hist := (history py_repr env requests_post).

Lemma last_history (events : list (float * Request)) : forall start d,
  last (hist start events) d =
  fold_left (fun st ev => fst (srv (fst ev) (snd ev) st)) events start.
Proof.
  induction events as [|[now req] rest IH]; intros start d; [reflexivity|].
  change (hist start ((now, req) :: rest))
    with (start :: hist (fst (srv now req start)) rest).
  change (last (start :: hist (fst (srv now req start)) rest) d)
    with (match hist (fst (srv now req start)) rest with
          | [] => start
          | _ :: _ => last (hist (fst (srv now req start)) rest) d
          end).
  destruct (hist (fst (srv now req start)) rest) eqn:E.
  - destruct rest as [|[? ?] ?]; discriminate E.
  - rewrite <- E, IH. reflexivity.
Qed.

Lemma no_ping_keeps (events : list (float * Request)) : forall st,
  forallb (fun ev => negb (is_ping ev)) events = true ->
  fold_left (fun st ev => fst (srv (fst ev) (snd ev) st)) events st = st.
Proof.
  induction events as [|[now req] rest IH]; intros st H; [reflexivity|].
  simpl in H. apply andb_true_iff in H as [Hp Hrest].
  simpl fold_left. rewrite serve_last_post_time.
  unfold is_ping in Hp. simpl in Hp.
  destruct req as [[| |]|j|j]; try discriminate Hp; now apply IH.
Qed.

(** X15: the liveness check measures from the most recent ping.  After any
    requests, a ping read at [p] and then any requests that are not pings,
    the stored time is [p]; with no ping at all it is the reading taken at
    process start; and a check read at [t] then answers 500 when
    [t - p > 120] and 200 otherwise, reporting [t - p]. *)
Theorem check_measures_from_last_ping
        (start p t : float) (before after : list (float * Request)) :
  forallb (fun ev => negb (is_ping ev)) after = true ->
  last (hist start (before ++ (p, Dms POST) :: after)) start = p
  /\ last (hist start after) start = start
  /\ exists body,
       srv t (Dms GET)
           (last (hist start (before ++ (p, Dms POST) :: after)) start)
       = (p, (Some (body, if (120 <? t - p)%float then 500%Z else 200%Z),
              []))
       /\ py_get body "seconds_since_last_ping" PyNone
          = Ok (PyFloat (t - p)).
Proof.
  intros H.
  assert (Hp : last (hist start (before ++ (p, Dms POST) :: after)) start = p).
  { rewrite last_history, fold_left_app. simpl fold_left.
    now rewrite no_ping_keeps. }
  split; [exact Hp|]. split.
  - rewrite last_history. now apply no_ping_keeps.
  - rewrite Hp. unfold serve, deadmansswitch.
    destruct (120 <? t - p)%float; eexists; split; reflexivity.
Qed.

End Pings.

Set Implicit Arguments.

(** * Worked instances *)

Import Sample.

(** The batch [resolved, firing A, resolved, firing B] yields alert [A]. *)
Lemma first_in_order_instance :
  batch_of (payload [resolved; alert "firing" "A"; resolved;
                     alert "firing" "B"])
           [resolved; alert "firing" "A"; resolved; alert "firing" "B"]
  /\ find_first_firing_alert
       (payload [resolved; alert "firing" "A"; resolved; alert "firing" "B"])
     = Ok (alert "firing" "A").
Proof.
  assert (Hb : batch_of
                 (payload [resolved; alert "firing" "A"; resolved;
                           alert "firing" "B"])
                 [resolved; alert "firing" "A"; resolved; alert "firing" "B"]).
  { eexists; split; [reflexivity|]. split; [left; reflexivity|].
    repeat constructor; eexists; reflexivity. }
  split; [exact Hb|].
  apply (proj1 (find_first_firing_alert_first_in_order Hb)
               [resolved] (alert "firing" "A")
               [resolved; alert "firing" "B"]).
  - reflexivity.
  - repeat constructor.
  - reflexivity.
Defined.

(** C2 fails as stated: a name holding [<] or [&] is embedded unescaped and
    the script is no longer well-formed, and a name holding tags adds
    elements to the script. *)
Lemma alert_name_not_escaped :
  build_twiml_from_alert no_repr (alert "firing" "Disk<Full")
  = Ok (PyStr (lit "Disk<Full"), script "Disk<Full")
  /\ well_formed (script "Disk<Full") = false
  /\ build_twiml_from_alert no_repr (alert "firing" "R&D")
     = Ok (PyStr (lit "R&D"), script "R&D")
  /\ well_formed (script "R&D") = false
  /\ build_twiml_from_alert no_repr
       (alert "firing" "x</Say><Hangup></Hangup><Say>y")
     = Ok (PyStr (lit "x</Say><Hangup></Hangup><Say>y"),
           script "x</Say><Hangup></Hangup><Say>y")
  /\ tokenize (script "x</Say><Hangup></Hangup><Say>y")
     = Some [TOpen (lit "Response");
             TOpen (lit "Say"); TText (lit "Alert triggered: x");
             TClose (lit "Say");
             TOpen (lit "Hangup"); TClose (lit "Hangup");
             TOpen (lit "Say"); TText (lit "y"); TClose (lit "Say");
             TClose (lit "Response")]
  /\ says (script "x</Say><Hangup></Hangup><Say>y") = None.
Proof. repeat split; reflexivity. Qed.

Lemma embeds_name_instance :
  build_twiml_from_alert no_repr (alert "firing" "DiskFull")
  = Ok (PyStr (lit "DiskFull"), script "DiskFull")
  /\ well_formed (script "DiskFull") = true
  /\ says (script "DiskFull") = Some (lit "Alert triggered: DiskFull").
Proof.
  assert (H : build_twiml_from_alert no_repr (alert "firing" "DiskFull")
              = Ok (PyStr (lit "DiskFull"), script "DiskFull"))
    by reflexivity.
  split; [exact H|].
  apply (proj2 (build_twiml_from_alert_embeds_name _ _ H)).
  reflexivity.
Defined.

(** C3 fails as stated: the provider answers 201 to both targets, with a
    body that is not JSON; the first answer already ends the request with
    500, the second target is never called and no result is returned. *)
Lemma created_without_json_aborts :
  to_numbers_of (lit "+15550001,+15550002")
  = [lit "+15550001"; lit "+15550002"]
  /\ status_code created_no_json = 201%Z
  /\ twilio_call_all no_repr (fanout "+15550001,+15550002")
                     (always created_no_json) (Ok disk_full) []
     = (Ok (PyDict [(lit "error", PyStr (lit "Internal server error"));
                    (lit "details",
                     PyStr (lit "Expecting value: line 1 column 1 (char 0)"))],
            500%Z),
        [call_to (fanout "+15550001,+15550002") (Some (lit "+15550001"))
                 (script "DiskFull")]).
Proof. repeat split; reflexivity. Qed.

(** Two targets, the second refused with 429: one success, one failure,
    status 207, both calls issued in order. *)
Lemma aggregates_instance :
  twilio_call_all no_repr (fanout "+15550001, +15550002,") second_busy
                  (Ok disk_full) []
  = (Ok (calls_processed 1 1
           [result_success (lit "+15550001");
            result_failed (lit "+15550002") (lit "Too Many Requests")],
         207%Z),
     [call_to (fanout "+15550001, +15550002,") (Some (lit "+15550001"))
              (script "DiskFull");
      call_to (fanout "+15550001, +15550002,") (Some (lit "+15550002"))
              (script "DiskFull")]).
Proof.
  apply (@twilio_call_all_aggregates
           no_repr (fanout "+15550001, +15550002,") second_busy
           (Ok disk_full) (script "DiskFull") (lit "+15550001, +15550002,")
           [lit "+15550001"; lit "+15550002"] [created; busy] 1).
  - exists disk_full, (alert "firing" "DiskFull"), (PyStr (lit "DiskFull")).
    repeat split; reflexivity.
  - reflexivity.
  - reflexivity.
  - discriminate.
  - constructor; [reflexivity|intros _; eexists; reflexivity|].
    constructor; [reflexivity|intros H; discriminate H|].
    constructor.
  - reflexivity.
Defined.

(** C4 fails as stated: the setting [ , ] yields no target, yet the request
    is not refused; it is answered 200 after zero calls. *)
Lemma blank_setting_not_rejected :
  effective_targets (fanout " , ") = []
  /\ twilio_call_all no_repr (fanout " , ") (always created)
                     (Ok disk_full) []
     = (Ok (calls_processed 0 0 [], 200%Z), []).
Proof. split; reflexivity. Qed.

Lemma unconfigured_instance :
  TO_NUMBERS_ALL unset = None
  /\ twilio_call_all no_repr unset (always created) (Ok disk_full) []
     = (Ok (not_set, 400%Z), [])
  /\ snd (twilio_call_all no_repr (fanout ",") (always created)
                          (Ok disk_full) []) = [].
Proof.
  split; [reflexivity|split].
  - apply (proj1 (twilio_call_all_unconfigured
                    no_repr unset (always created) (Ok disk_full))).
    left; reflexivity.
  - apply (proj2 (twilio_call_all_unconfigured
                    no_repr (fanout ",") (always created) (Ok disk_full))).
    reflexivity.
Defined.

(** C5 fails as stated: 130 seconds after the last ping the response is the
    500 one and its status reads [error], not [stale]. *)
Lemma stale_status_reads_error :
  exists body,
    deadmansswitch GET 130 0 = (0%float, (body, 500%Z))
    /\ py_get body "status" PyNone = Ok (PyStr (lit "error"))
    /\ py_get body "seconds_since_last_ping" PyNone = Ok (PyFloat 130)
    /\ PyStr (lit "error") <> PyStr (lit "stale").
Proof.
  eexists. split; [reflexivity|]. repeat split; try reflexivity.
  discriminate.
Qed.

(** A ping at 1, a check at 5, an alert at 7, a ping at 9. *)
Lemma monotone_instance :
  nondecreasing [0; 1; 5; 7; 9]%float
  /\ history no_repr unset (always created) 0%float
             [(1%float, Dms POST); (5%float, Dms GET);
              (7%float, TwilioCall (Ok disk_full)); (9%float, Dms POST)]
     = [0; 1; 1; 1; 9]%float
  /\ nondecreasing
       (history no_repr unset (always created) 0%float
                [(1%float, Dms POST); (5%float, Dms GET);
                 (7%float, TwilioCall (Ok disk_full)); (9%float, Dms POST)]).
Proof.
  assert (H : nondecreasing [0; 1; 5; 7; 9]%float)
    by (repeat constructor).
  split; [exact H|]. split; [reflexivity|].
  apply (proj2 (proj2 (last_post_time_monotone
                         no_repr unset (always created) 0%float
                         [(1%float, Dms POST); (5%float, Dms GET);
                          (7%float, TwilioCall (Ok disk_full));
                          (9%float, Dms POST)]))).
  exact H.
Defined.

(** C7 fails as stated: a payload whose [alerts] is null holds no firing
    alert and is answered 500. *)
Lemma malformed_payload_is_500 :
  find_first_firing_alert (PyDict [(lit "alerts", PyNone)])
  = Raise (Exn (lit "TypeError") (lit "'NoneType' object is not iterable"))
  /\ twilio_call no_repr unset (always created)
                 (Ok (PyDict [(lit "alerts", PyNone)])) []
     = (Ok (PyDict [(lit "error", PyStr (lit "Internal server error"));
                    (lit "details",
                     PyStr (lit "'NoneType' object is not iterable"))],
            500%Z), []).
Proof. split; reflexivity. Qed.

Lemma without_firing_alert_instance :
  twilio_call no_repr unset (always created)
              (Ok (payload [resolved; PyDict []; alert "Firing" "A"])) []
  = (Ok (message "No firing alerts, skipping call", 200%Z), [])
  /\ twilio_call no_repr unset (always created)
                 (Ok (PyDict [(lit "alerts", PyStr [])])) []
     = (Ok (message "No firing alerts, skipping call", 200%Z), [])
  /\ twilio_call no_repr unset (always created)
                 (Ok (PyDict [(lit "alerts", PyNone)])) []
     = (Ok (internal_error (TypeError_not_iterable PyNone)), [])
  /\ twilio_call no_repr unset (always created)
                 (Ok (payload [resolved; PyInt 5])) []
     = (Ok (internal_error (AttributeError (PyInt 5) "get")), []).
Proof.
  split; [|split; [|split]].
  - destruct (twilio_call_without_firing_alert
                no_repr unset (always created)
                (Ok (payload [resolved; PyDict []; alert "Firing" "A"])))
      as (_ & _ & _ & _ & H & _).
    apply (H (payload [resolved; PyDict []; alert "Firing" "A"])
             [resolved; PyDict []; alert "Firing" "A"]).
    + reflexivity.
    + eexists; split; [reflexivity|]. split; [left; reflexivity|].
      repeat constructor; eexists; reflexivity.
    + repeat constructor.
  - destruct (twilio_call_without_firing_alert
                no_repr unset (always created)
                (Ok (PyDict [(lit "alerts", PyStr [])])))
      as (_ & _ & _ & _ & _ & H & _).
    apply (H [(lit "alerts", PyStr [])] (PyStr [])); auto.
  - destruct (twilio_call_without_firing_alert
                no_repr unset (always created)
                (Ok (PyDict [(lit "alerts", PyNone)])))
      as (_ & _ & _ & _ & _ & _ & _ & H & _).
    apply (H [(lit "alerts", PyNone)] PyNone); reflexivity.
  - destruct (twilio_call_without_firing_alert
                no_repr unset (always created)
                (Ok (payload [resolved; PyInt 5])))
      as (_ & _ & _ & _ & _ & _ & _ & _ & H).
    apply (H [(lit "receiver", PyStr (lit "oncall"));
              (lit "alerts", PyList [resolved; PyInt 5])]
             [resolved] (PyInt 5) []).
    + reflexivity.
    + reflexivity.
    + repeat constructor; eexists; reflexivity.
    + repeat constructor.
    + intros [d Hd]. discriminate Hd.
Defined.

(** C8 fails as stated: with nothing configured /twilio-call is not refused
    with 400; it places its call, to no number and from none, and reports
    the provider's refusal as 500. *)
Lemma missing_settings_not_rejected :
  twilio_call no_repr unset (always unauthorized) (Ok disk_full) []
  = (Ok (PyDict [(lit "error", PyStr (lit "Failed to initiate call"));
                 (lit "details", PyStr (lit "Authenticate"))], 500%Z),
     [{| url := lit "https://api.twilio.com/2010-04-01/Accounts/None/Calls.json";
         auth := (None, None);
         From := None;
         To := None;
         Twiml := script "DiskFull" |}]).
Proof. reflexivity. Qed.

Lemma only_fanout_list_instance :
  twilio_call_all no_repr unset (always created) (Ok disk_full) []
  = (Ok (not_set, 400%Z), [])
  /\ snd (twilio_call no_repr unset (always unauthorized) (Ok disk_full) [])
     = [{| url := lit "https://api.twilio.com/2010-04-01/Accounts/"
                    ++ format_setting None ++ lit "/Calls.json";
           auth := (None, None);
           From := None;
           To := None;
           Twiml := script "DiskFull" |}].
Proof.
  split.
  - apply (proj1 (only_fanout_list_is_validated
                    no_repr unset (always created) (Ok disk_full))).
    left; reflexivity.
  - apply (proj2 (proj2 (only_fanout_list_is_validated
                           no_repr unset (always unauthorized)
                           (Ok disk_full)))
                 (script "DiskFull")).
    exists disk_full, (alert "firing" "DiskFull"), (PyStr (lit "DiskFull")).
    repeat split; reflexivity.
Defined.

Lemma status_match_instance :
  exists d,
    alert "firing" "DiskFull" = PyDict d
    /\ lookup (lit "status") d = Some (PyStr (lit "firing")).
Proof.
  apply (proj1 (status_match_is_exact no_repr unset (always created)
                                      disk_full)
               (alert "firing" "DiskFull")).
  - reflexivity.
  - discriminate.
Defined.

(** C10 fails as stated: with the setting [ , ] a request without a
    firing alert is answered 200 with a body that reports no counts, and a
    payload whose [alerts] is null is answered 500. *)
Lemma blank_setting_other_answers :
  twilio_call_all no_repr (fanout " , ") (always created)
                  (Ok (payload [resolved])) []
  = (Ok (message "No firing alerts, skipping calls", 200%Z), [])
  /\ py_get (message "No firing alerts, skipping calls") "successes" PyNone
     = Ok PyNone
  /\ twilio_call_all no_repr (fanout " , ") (always created)
                     (Ok (PyDict [(lit "alerts", PyNone)])) []
     = (Ok (PyDict [(lit "error", PyStr (lit "Internal server error"));
                    (lit "details",
                     PyStr (lit "'NoneType' object is not iterable"))],
            500%Z), []).
Proof. repeat split; reflexivity. Qed.

(** The setting [ +15550001 , ,+15550002] read back, and the fan-out of a
    firing alert under the setting [ , ,]. *)
Lemma fanout_list_instance :
  to_numbers_of (lit " +15550001 , ,+15550002")
  = fanout_targets (lit " +15550001 , ,+15550002")
  /\ to_numbers_of (lit "+15550001 , +15550002")
     = [lit "+15550001"; lit "+15550002"]
  /\ twilio_call_all no_repr (fanout " , ,") (always created)
                     (Ok disk_full) []
     = (Ok (calls_processed 0 0 [], 200%Z), []).
Proof.
  split; [|split].
  - exact (proj1 (proj2 (proj2 (fanout_list_derivation
                                  no_repr unset (always created)
                                  (lit " +15550001 , ,+15550002"))))).
  - destruct (fanout_list_derivation
                no_repr unset (always created)
                (lit "+15550001 , +15550002"))
      as (_ & _ & _ & H & _).
    apply (H [([], lit "+15550001", lit " ");
              (lit " ", lit "+15550002", [])]).
    + repeat constructor.
    + reflexivity.
  - destruct (fanout_list_derivation
                no_repr (fanout " , ,") (always created) (lit " , ,"))
      as (_ & _ & _ & _ & _ & _ & H).
    apply (H (Ok disk_full) (script "DiskFull")).
    + reflexivity.
    + discriminate.
    + reflexivity.
    + exists disk_full, (alert "firing" "DiskFull"), (PyStr (lit "DiskFull")).
      repeat split; reflexivity.
Defined.

(** ** Instances of the further properties *)

Lemma stops_instance :
  find_first_firing_alert
    (PyDict [(lit "alerts",
              PyList [resolved; alert "firing" "A"; PyInt 5])])
  = Ok (alert "firing" "A")
  /\ find_first_firing_alert
       (PyDict [(lit "alerts",
                 PyList [resolved; PyStr (lit "x"); alert "firing" "A"])])
     = Raise (AttributeError (PyStr (lit "x")) "get").
Proof.
  split.
  - apply (proj1 (@find_first_firing_alert_stops
                    [(lit "alerts",
                      PyList [resolved; alert "firing" "A"; PyInt 5])]
                    [resolved] (alert "firing" "A") [PyInt 5]
                    eq_refl
                    ltac:(repeat constructor; eexists; reflexivity)
                    ltac:(repeat constructor))).
    reflexivity.
  - apply (proj2 (@find_first_firing_alert_stops
                    [(lit "alerts",
                      PyList [resolved; PyStr (lit "x");
                              alert "firing" "A"])]
                    [resolved] (PyStr (lit "x")) [alert "firing" "A"]
                    eq_refl
                    ltac:(repeat constructor; eexists; reflexivity)
                    ltac:(repeat constructor))).
    intros [d Hd]. discriminate Hd.
Defined.

Lemma wrong_shape_instance :
  find_first_firing_alert (PyList [])
  = Raise (AttributeError (PyList []) "get")
  /\ find_first_firing_alert (PyDict [(lit "alerts", PyStr (lit "none"))])
     = Raise (AttributeError (PyStr (lit "n")) "get").
Proof.
  split.
  - apply (proj1 (find_first_firing_alert_wrong_shape (PyList []))).
    intros [d Hd]. discriminate Hd.
  - apply (proj2 (find_first_firing_alert_wrong_shape
                    (PyDict [(lit "alerts", PyStr (lit "none"))]))
                 [(lit "alerts", PyStr (lit "none"))] (PyStr (lit "none"))
                 eq_refl eq_refl).
Defined.

Lemma truthy_instance :
  py_truthy (alert "firing" "DiskFull") = false
  <-> alert "firing" "DiskFull" = PyNone.
Proof.
  apply (@returned_alert_is_truthy disk_full (alert "firing" "DiskFull")).
  reflexivity.
Defined.

Lemma unknown_instance :
  build_twiml_from_alert no_repr
    (PyDict [(lit "status", PyStr (lit "firing"));
             (lit "labels", PyDict [(lit "severity", PyStr (lit "page"))])])
  = Ok (PyStr (lit "Unknown Alert"),
        lit "<Response><Say>Alert triggered: Unknown Alert</Say></Response>").
Proof.
  apply (build_twiml_from_alert_unknown no_repr).
  right. eexists. split; reflexivity.
Defined.

Lemma raises_instance :
  build_twiml_from_alert no_repr
    (PyDict [(lit "status", PyStr (lit "firing")); (lit "labels", PyNone)])
  = Raise (AttributeError PyNone "get").
Proof.
  apply (proj2 (build_twiml_from_alert_raises no_repr
                  (PyDict [(lit "status", PyStr (lit "firing"));
                           (lit "labels", PyNone)])
                  (AttributeError PyNone "get"))).
  right. do 2 eexists. repeat split; try reflexivity.
  intros [d Hd]. discriminate Hd.
Defined.

Lemma success_instance :
  exists twiml r,
    announces no_repr (Ok disk_full) twiml
    /\ [call_to (fanout "") (Some (lit "+15550001")) (script "DiskFull")]
       = [call_to (fanout "") (TO_NUMBER (fanout "")) twiml]
    /\ always created 0%nat (call_to (fanout "") (TO_NUMBER (fanout "")) twiml)
       = Ok r
    /\ status_code r = 201%Z
    /\ 200%Z = 200%Z.
Proof.
  apply (@twilio_call_success_means_created
           no_repr (fanout "") (always created) (Ok disk_full) 200%Z
           [call_to (fanout "") (Some (lit "+15550001")) (script "DiskFull")]).
  reflexivity.
Defined.

Lemma reports_failure_instance :
  twilio_call no_repr (fanout "") (always busy) (Ok disk_full) []
  = (Ok (PyDict [(lit "error", PyStr (lit "Failed to initiate call"));
                 (lit "details", PyStr (lit "Too Many Requests"))], 500%Z),
     [call_to (fanout "") (Some (lit "+15550001")) (script "DiskFull")]).
Proof.
  apply (proj1 (@twilio_call_reports_failure
                  no_repr (fanout "") (always busy) (Ok disk_full)
                  (script "DiskFull")
                  ltac:(exists disk_full, (alert "firing" "DiskFull"),
                               (PyStr (lit "DiskFull"));
                        repeat split; reflexivity))
               busy).
  - reflexivity.
  - discriminate.
Defined.

(** Three targets, the transport down at the second call: 500 after two
    calls, the third target not called. *)
Lemma exception_aborts_instance :
  twilio_call_all no_repr (fanout "+15550001,+15550002,+15550003")
                  second_down (Ok disk_full) []
  = (Ok (PyDict [(lit "error", PyStr (lit "Internal server error"));
                 (lit "details", PyStr (lit "connection refused"))], 500%Z),
     [call_to (fanout "+15550001,+15550002,+15550003")
              (Some (lit "+15550001")) (script "DiskFull");
      call_to (fanout "+15550001,+15550002,+15550003")
              (Some (lit "+15550002")) (script "DiskFull")]).
Proof.
  apply (@twilio_call_all_exception_aborts
           no_repr (fanout "+15550001,+15550002,+15550003") second_down
           (Ok disk_full) (script "DiskFull")
           (lit "+15550001,+15550002,+15550003")
           [lit "+15550001"] (lit "+15550002") [lit "+15550003"]
           [created]
           (Exn (lit "ConnectionError") (lit "connection refused"))).
  - exists disk_full, (alert "firing" "DiskFull"), (PyStr (lit "DiskFull")).
    repeat split; reflexivity.
  - reflexivity.
  - reflexivity.
  - constructor; [reflexivity|intros _; eexists; reflexivity|constructor].
  - left. reflexivity.
Defined.

Lemma processed_instance :
  map (lookup (lit "to"))
      [result_success (lit "+15550001");
       result_failed (lit "+15550002") (lit "Too Many Requests")]
  = map (fun t => Some (PyStr t))
        (effective_targets (fanout "+15550001, +15550002,"))
  /\ map To
         [call_to (fanout "+15550001, +15550002,") (Some (lit "+15550001"))
                  (script "DiskFull");
          call_to (fanout "+15550001, +15550002,") (Some (lit "+15550002"))
                  (script "DiskFull")]
     = map Some (effective_targets (fanout "+15550001, +15550002,"))
  /\ (0 <= 1 /\ 0 <= 1
      /\ 1 + 1
         = Z.of_nat (List.length
                       (effective_targets (fanout "+15550001, +15550002,"))))%Z
  /\ (1%Z = 0%Z /\ 207%Z = 200%Z \/ (0 < 1)%Z /\ 207%Z = 207%Z).
Proof.
  apply (@twilio_call_all_processed
           no_repr (fanout "+15550001, +15550002,") second_busy
           (Ok disk_full) 1%Z 1%Z
           [result_success (lit "+15550001");
            result_failed (lit "+15550002") (lit "Too Many Requests")]
           207%Z).
  reflexivity.
Defined.

Lemma fanout_without_firing_instance :
  twilio_call_all no_repr (fanout "+15550001,+15550002") (always created)
                  (Ok (payload [resolved; alert "FIRING" "A"])) []
  = (Ok (message "No firing alerts, skipping calls", 200%Z), []).
Proof.
  apply (@twilio_call_all_without_firing_alert
           no_repr (fanout "+15550001,+15550002") (always created)
           (payload [resolved; alert "FIRING" "A"])
           [resolved; alert "FIRING" "A"] 43%N (lit "15550001,+15550002")).
  - reflexivity.
  - eexists; split; [reflexivity|]. split; [left; reflexivity|].
    repeat constructor; eexists; reflexivity.
  - repeat constructor.
Defined.

(** The setting [+15550001 , +15550002,+15550001] read back. *)
Lemma join_instance :
  to_numbers_of (lit "+15550001 , +15550002,+15550001")
  = [lit "+15550001"; lit "+15550002"; lit "+15550001"].
Proof.
  apply (to_numbers_of_join
           [([], lit "+15550001", lit " ");
            (lit " ", lit "+15550002", []);
            ([], lit "+15550001", [])]).
  repeat constructor.
Defined.

(** A ping at 50 after one at 1, then an alert and a check: at 200 the
    switch has run out, 150 seconds after the ping at 50. *)
Lemma last_ping_instance :
  last (history no_repr unset (always created) 0%float
          ([(1%float, Dms POST)] ++ (50%float, Dms POST)
             :: [(60%float, TwilioCall (Ok disk_full)); (70%float, Dms GET)]))
       0%float = 50%float
  /\ exists body,
       serve no_repr unset (always created) 200%float (Dms GET) 50%float
       = (50%float, (Some (body, 500%Z), []))
       /\ py_get body "seconds_since_last_ping" PyNone = Ok (PyFloat 150).
Proof.
  destruct (@check_measures_from_last_ping
              no_repr unset (always created) 0%float 50%float 200%float
              [(1%float, Dms POST)]
              [(60%float, TwilioCall (Ok disk_full)); (70%float, Dms GET)]
              eq_refl) as (Hp & _ & body & Hs & Hb).
  split; [exact Hp|].
  exists body. rewrite Hp in Hs. split; [exact Hs|exact Hb].
Defined.
